(** * EmmyLua for VS Code: the extension entry point (src/extension.ts)

    A shallow embedding of the extension's module-level state, of its event
    handlers and of the asynchronous continuations they register, followed by
    the properties of the bootstrap, retry, restart, progress and command
    paths.

    JavaScript runs every callback to completion before the next one starts,
    so one callback is one transition of a state machine: the handlers below
    are the bodies of the callbacks, and an [await] or a [.then] is a pending
    continuation the host resumes later. *)

From Stdlib Require Import String Ascii DecimalString List NArith Bool Arith Lia PrimFloat.
Import ListNotations.
Local Open Scope N_scope.
Local Open Scope list_scope.

(** ** JavaScript strings

    A JavaScript string is a sequence of UTF-16 code units; the regular
    expressions of the source are not in unicode mode and so work on code
    units. *)
Definition jsstring := list N.

(** The string literals of the source are ASCII. *)
Definition js (s : string) : jsstring :=
  map N_of_ascii (list_ascii_of_string s).

Definition QUOTE : N := 34.       (* the double quote character *)
Definition BACKSLASH : N := 92.
Definition SLASH : N := 47.
Definition LF : jsstring := [10].

Fixpoint str_eqb (a b : jsstring) : bool :=
  match a, b with
  | [], [] => true
  | x :: a', y :: b' => (x =? y) && str_eqb a' b'
  | _, _ => false
  end.

(** Truthiness of a string: the empty string is falsy. *)
Definition truthy (s : jsstring) : bool :=
  match s with [] => false | _ :: _ => true end.

(** [x || d] for a [string | null | undefined] value [x]. *)
Definition or_default (x : option jsstring) (d : jsstring) : jsstring :=
  match x with
  | Some s => if truthy s then s else d
  | None => d
  end.

(** Values that travel as rejection reasons and as message arguments. *)
Inductive JsVal :=
| js_undefined
| js_string (s : jsstring)
| js_Error (name message : jsstring).

(** Data handed through without being looked into: the configuration files
    the watcher reports and the update events it emits. *)
#[local] Unset Elimination Schemes.
Inductive Json :=
| J_null
| J_bool (b : bool)
| J_number (x : float)
| J_string (s : jsstring)
| J_array (items : list Json)
| J_object (fields : list (jsstring * Json)).
#[local] Set Elimination Schemes.

(** Property read [v.message]: a string primitive has no such property. *)
Definition get_message (v : JsVal) : JsVal :=
  match v with
  | js_Error _ m => js_string m
  | _ => js_undefined
  end.

(** String conversion in a template literal, [`${v}`]. *)
Definition to_str (v : JsVal) : jsstring :=
  match v with
  | js_undefined => js "undefined"
  | js_string s => s
  | js_Error n m =>
      if truthy n then (if truthy m then n ++ js ": " ++ m else n) else m
  end.

(** ** Regular expressions

    The fragment of the regular-expression language the source uses, with the
    backtracking semantics of [RegExp.prototype.exec]: alternatives are tried
    left to right, a greedy quantifier tries the longest repetition first, a
    lazy one the shortest, and a failure further right makes the engine come
    back to the latest choice. The matcher is written in continuation-passing
    style: [k] is the rest of the pattern. *)
Inductive regex :=
| Lit (s : jsstring)                 (* a literal sequence of characters *)
| Alt (r1 r2 : regex)                (* r1|r2 *)
| Cat (r1 r2 : regex)                (* r1r2 *)
| Group (n : nat) (r : regex)        (* capturing group number n *)
| Opt (r : regex)                    (* r? *)
| Plus (c : N -> bool)               (* c+ over a character class *)
| PlusLazy (c : N -> bool).          (* c+? over a character class *)

(** Captures: group number to matched text, latest binding first. *)
Definition captures := list (nat * jsstring).

Fixpoint capture (n : nat) (caps : captures) : option jsstring :=
  match caps with
  | [] => None
  | (m, s) :: caps' => if Nat.eqb n m then Some s else capture n caps'
  end.

Fixpoint strip_prefix (p s : jsstring) : option jsstring :=
  match p, s with
  | [], _ => Some s
  | x :: p', y :: s' => if x =? y then strip_prefix p' s' else None
  | _ :: _, [] => None
  end.

(** The text consumed between input [s] and its suffix [s']. *)
Definition consumed (s s' : jsstring) : jsstring :=
  firstn (length s - length s') s.

Definition orelse {R} (a : option R) (b : option R) : option R :=
  match a with Some _ => a | None => b end.

Fixpoint plus_greedy {R} (c : N -> bool) (s : jsstring)
    (k : jsstring -> option R) : option R :=
  match s with
  | x :: s' => if c x then orelse (plus_greedy c s' k) (k s') else None
  | [] => None
  end.

Fixpoint plus_lazy {R} (c : N -> bool) (s : jsstring)
    (k : jsstring -> option R) : option R :=
  match s with
  | x :: s' => if c x then orelse (k s') (plus_lazy c s' k) else None
  | [] => None
  end.

Fixpoint rmatch {R} (r : regex) (s : jsstring) (caps : captures)
    (k : jsstring -> captures -> option R) : option R :=
  match r with
  | Lit p =>
      match strip_prefix p s with
      | Some s' => k s' caps
      | None => None
      end
  | Alt r1 r2 => orelse (rmatch r1 s caps k) (rmatch r2 s caps k)
  | Cat r1 r2 => rmatch r1 s caps (fun s' caps' => rmatch r2 s' caps' k)
  | Group n r =>
      rmatch r s caps (fun s' caps' => k s' ((n, consumed s s') :: caps'))
  | Opt r => orelse (rmatch r s caps k) (k s caps)
  | Plus c => plus_greedy c s (fun s' => k s' caps)
  | PlusLazy c => plus_lazy c s (fun s' => k s' caps)
  end.

(** A match that starts at the head of [s]. *)
Definition match_here (r : regex) (s : jsstring) : option captures :=
  rmatch r s [] (fun s' caps => Some ((0%nat, consumed s s') :: caps)).

(** [r.exec(s)] with [lastIndex = 0]: the match at the leftmost index that
    has one; every index from 0 to the length of [s] is tried. *)
Fixpoint exec (r : regex) (s : jsstring) : option captures :=
  match match_here r s with
  | Some m => Some m
  | None =>
      match s with
      | [] => None
      | _ :: s' => exec r s'
      end
  end.

(** [m[n]] of a match array: [undefined] for a group that took no part. *)
Definition group (n : nat) (m : captures) : JsVal :=
  match capture n m with
  | Some s => js_string s
  | None => js_undefined
  end.

(** [\d] *)
Definition digit (c : N) : bool := (48 <=? c) && (c <=? 57).

(** [.]: any code unit but the line terminators LF, CR, U+2028 and U+2029. *)
Definition dot (c : N) : bool :=
  negb ((c =? 10) || (c =? 13) || (c =? 8232) || (c =? 8233)).

(** [parseInt] of a decimal numeral. The source only compares the result with
    1 and 8; the exact natural number orders the same way as the double
    [parseInt] rounds it to, so the exact value is kept. *)
Definition digit_value (c : N) : N := c - 48.

Definition parse_digits (s : jsstring) : N :=
  fold_left (fun acc c => 10 * acc + digit_value c) s 0.

(** [parseInt(m) || 0] where [m] is a captured run of digits or [undefined]:
    [parseInt(undefined)] is [NaN], which is falsy. *)
Definition parseInt_or_0 (m : option jsstring) : N :=
  match m with
  | Some s => parse_digits s
  | None => 0
  end.

(** ** validateJava *)

(** [/(?:java|openjdk) version "((\d+)(\.(\d+).+?)?)"/g] *)
Definition regexp : regex :=
  Cat (Alt (Lit (js "java")) (Lit (js "openjdk")))
 (Cat (Lit (js " version " ++ [QUOTE]))
 (Cat (Group 1
         (Cat (Group 2 (Plus digit))
              (Opt (Group 3
                      (Cat (Lit (js "."))
                      (Cat (Group 4 (Plus digit))
                           (PlusLazy dot)))))))
      (Lit [QUOTE]))).

(** How a promise settles. *)
Inductive Settled (A : Type) :=
| Resolved (a : A)
| Rejected (reason : JsVal).
Arguments Resolved {A} a.
Arguments Rejected {A} reason.

Definition msg_unsupported (version : jsstring) : jsstring :=
  js "Unsupported Java version: " ++ version ++
  js ", please install Java 1.8 or above.".

Definition msg_cant_find : jsstring :=
  js "Can't find Java! Please install Java 1.8 or above and set JAVA_HOME environment variable.".

(** The command line [validateJava] runs. *)
Definition version_command (exePath : jsstring) : jsstring :=
  [QUOTE] ++ exePath ++ [QUOTE] ++ js " -version".

(** The callback [validateJava] passes to [cp.exec]: how the promise settles
    for what the child process wrote on its standard error. *)
Definition validateJava_callback (stderr : jsstring) : Settled unit :=
  if truthy stderr then
    match exec regexp stderr with
    | Some m =>
        let major := parseInt_or_0 (capture 2 m) in
        let minor := parseInt_or_0 (capture 4 m) in
        if (1 <? major) || ((major =? 1) && (8 <=? minor)) then Resolved tt
        else Rejected (js_string (msg_unsupported (to_str (group 1 m))))
    | None => Rejected (js_string msg_cant_find)
    end
  else Rejected (js_string msg_cant_find).

(** ** The editor host and the objects it hands out *)

(** A text document is an object of the host: it is known by its reference,
    and [languageId] is read through the reference (see [Host]). *)
Definition DocRef := nat.

Record TextEditor := mkEditor {
  editor_id : nat;
  document : DocRef
}.

Record MessageOptions := { modal : bool }.

Inductive ServerOptions :=
| Executable (command : jsstring) (args : list jsstring)
    (* { command, args }: the client spawns a child process *)
| SocketConnect (port : N).
    (* a function that calls net.connect({ port }) and returns the socket *)

Record InitializationOptions := {
  stdFolder : jsstring;
  apiFolders : list jsstring;
  workspaceFolders : option (list jsstring);
  client_tag : jsstring;
  configFiles : Json
}.

Record LanguageClientOptions := {
  documentSelector : list (jsstring * jsstring);       (* scheme, language *)
  synchronize_configurationSection : list jsstring;
  synchronize_fileEvents : list jsstring;              (* watched globs *)
  initializationOptions : InitializationOptions
}.

(** A [LanguageClient] object; [client_ref] tells the objects apart. *)
Record LanguageClient := {
  client_ref : nat;
  client_id : jsstring;
  client_name : jsstring;
  serverOptions : ServerOptions;
  clientOptions : LanguageClientOptions
}.

(** notifications.IProgressReport *)
Record IProgressReport := {
  text : jsstring;
  percent : float
}.

Record StatusBarItem := {
  visible : bool;
  bar_text : jsstring
}.

(** What a callback reads from its surroundings while it runs: the clock,
    the process, the editor window, and the library functions of Node and of
    the editor whose code is not part of the extension. *)
Record Host := {
  now : N;                                      (* milliseconds *)
  env_EMMY_DEV : option jsstring;               (* process.env['EMMY_DEV'] *)
  process_platform : jsstring;
  extensionPath : jsstring;                     (* savedContext.extensionPath *)
  findJava : option jsstring;                   (* what findJava() returns *)
  window_activeTextEditor : option TextEditor;
  languageId : DocRef -> jsstring;
  workspace_folders : option (list jsstring);   (* uris, as strings *)
  path_resolve : list jsstring -> jsstring;
  path_join : list jsstring -> jsstring;
  uri_file : jsstring -> jsstring               (* Uri.file(p).toString() *)
}.

(** Calls into the host, in the order they are made. *)
Inductive Effect :=
| console_log (s : jsstring)
| call_findJava
| cp_exec (command : jsstring)
| window_showErrorMessage (message : JsVal) (options : option MessageOptions)
                          (items : list jsstring)
| configWatcher_watch
| new_LanguageClient (c : LanguageClient)
| client_start (c : LanguageClient)
| client_onReady (c : LanguageClient)
| client_onNotification (c : LanguageClient) (method : jsstring)
| client_stop (c : LanguageClient)
| client_sendRequest (c : LanguageClient) (method : jsstring) (param : Json)
| Annotator_requestAnnotators (editor : TextEditor) (c : option LanguageClient)
| Annotator_onDidChangeConfiguration (c : option LanguageClient)
| setTimeout (ms : N)
| window_showQuickPick (items : list jsstring)
| insertSnippet (editor : TextEditor) (snippet : jsstring).

(** Whether a message is shown modally: only when options say so. *)
Definition shown_modal (o : option MessageOptions) : bool :=
  match o with
  | Some opts => modal opts
  | None => false
  end.

(** ** Pending continuations

    What the host holds of the extension between two callbacks: the code
    after an [await], or the function given to [.then], to [cp.exec] or to
    [setTimeout]. *)
Inductive Pending :=
| K_validateJava               (* after [await validateJava()] in startServer *)
| K_tryAgain                   (* showErrorMessage(..).then(startServer) *)
| K_watch                      (* after [await configWatcher.watch()] *)
| K_onReady (c : nat)          (* after [await client.onReady()] *)
| K_stopped                    (* client.stop().then(startServer) *)
| K_quickPick (e : TextEditor) (* after [await showQuickPick(..)] *)
| K_hide (due : N).            (* the function given to setTimeout *)

Definition editor_eqb (a b : TextEditor) : bool :=
  Nat.eqb (editor_id a) (editor_id b) && Nat.eqb (document a) (document b).

Definition Pending_eqb (a b : Pending) : bool :=
  match a, b with
  | K_validateJava, K_validateJava => true
  | K_tryAgain, K_tryAgain => true
  | K_watch, K_watch => true
  | K_onReady c, K_onReady d => Nat.eqb c d
  | K_stopped, K_stopped => true
  | K_quickPick e, K_quickPick f => editor_eqb e f
  | K_hide d, K_hide e => d =? e
  | _, _ => false
  end.

Fixpoint holds (p : Pending) (l : list Pending) : bool :=
  match l with
  | [] => false
  | q :: l' => Pending_eqb p q || holds p l'
  end.

(** A continuation runs once: resuming it takes it out. *)
Fixpoint take (p : Pending) (l : list Pending) : list Pending :=
  match l with
  | [] => []
  | q :: l' => if Pending_eqb p q then l' else q :: take p l'
  end.

(** ** Module state

    The module-level variables of extension.ts, and next to them what the
    host keeps for the extension: the pending continuations, the clients that
    have the progress handler, and how many clients were constructed. *)
Record State := mkState {
  DEBUG_MODE : bool;
  client : option LanguageClient;
  activeEditor : option TextEditor;
  progressBar : StatusBarItem;
  javaExecutablePath : option jsstring;
  pending : list Pending;
  progressHandlers : list nat;
  clientsCreated : nat
}.

Definition set_DEBUG_MODE (b : bool) (s : State) : State :=
  mkState b (client s) (activeEditor s) (progressBar s)
          (javaExecutablePath s) (pending s) (progressHandlers s)
          (clientsCreated s).
Definition set_client (c : option LanguageClient) (s : State) : State :=
  mkState (DEBUG_MODE s) c (activeEditor s) (progressBar s)
          (javaExecutablePath s) (pending s) (progressHandlers s)
          (clientsCreated s).
Definition set_activeEditor (e : option TextEditor) (s : State) : State :=
  mkState (DEBUG_MODE s) (client s) e (progressBar s)
          (javaExecutablePath s) (pending s) (progressHandlers s)
          (clientsCreated s).
Definition set_progressBar (b : StatusBarItem) (s : State) : State :=
  mkState (DEBUG_MODE s) (client s) (activeEditor s) b
          (javaExecutablePath s) (pending s) (progressHandlers s)
          (clientsCreated s).
Definition set_javaExecutablePath (p : option jsstring) (s : State) : State :=
  mkState (DEBUG_MODE s) (client s) (activeEditor s) (progressBar s)
          p (pending s) (progressHandlers s) (clientsCreated s).
Definition set_pending (l : list Pending) (s : State) : State :=
  mkState (DEBUG_MODE s) (client s) (activeEditor s) (progressBar s)
          (javaExecutablePath s) l (progressHandlers s) (clientsCreated s).
Definition set_progressHandlers (l : list nat) (s : State) : State :=
  mkState (DEBUG_MODE s) (client s) (activeEditor s) (progressBar s)
          (javaExecutablePath s) (pending s) l (clientsCreated s).
Definition set_clientsCreated (n : nat) (s : State) : State :=
  mkState (DEBUG_MODE s) (client s) (activeEditor s) (progressBar s)
          (javaExecutablePath s) (pending s) (progressHandlers s) n.

(** The state before [activate]. *)
Definition initial : State :=
  mkState false None None {| visible := false; bar_text := [] |} None [] [] 0.

(** ** Callbacks as state transformers that log their host calls *)
Definition M (A : Type) : Type := State -> A * State * list Effect.

Definition ret {A} (a : A) : M A := fun s => (a, s, []).

Definition bind {A B} (m : M A) (f : A -> M B) : M B :=
  fun s =>
    let '(a, s1, e1) := m s in
    let '(b, s2, e2) := f a s1 in
    (b, s2, e1 ++ e2).

Notation "x <- m ;; k" := (bind m (fun x => k))
  (at level 61, m at next level, right associativity).
Notation "m ;; k" := (bind m (fun _ => k))
  (at level 61, right associativity).

Definition get : M State := fun s => (s, s, []).
Definition modify (f : State -> State) : M unit := fun s => (tt, f s, []).
Definition emit (e : Effect) : M unit := fun s => (tt, s, [e]).
Definition skip : M unit := ret tt.

(** Leaves a continuation with the host. *)
Definition await (p : Pending) : M unit :=
  modify (fun s => set_pending (pending s ++ [p]) s).

Definition state_of {A} (r : A * State * list Effect) : State := snd (fst r).
Definition effects_of {A} (r : A * State * list Effect) : list Effect := snd r.

(** ** The handlers of extension.ts *)

Definition LANGUAGE_ID : jsstring := js "lua".
Definition TRY_AGAIN : jsstring := js "Try again".

(** [a === b] on [string | null]. *)
Definition path_eqb (a b : option jsstring) : bool :=
  match a, b with
  | Some x, Some y => str_eqb x y
  | None, None => true
  | _, _ => false
  end.

Definition onDidChangeTextDocument (h : Host) (event_document : DocRef) : M unit :=
  s <- get ;;
  match activeEditor s with
  | Some ed =>
      if Nat.eqb (document ed) event_document
         && str_eqb (languageId h (document ed)) LANGUAGE_ID
      then emit (Annotator_requestAnnotators ed (client s))
      else skip
  | None => skip
  end.

Definition onDidChangeActiveTextEditor (h : Host) (editor : option TextEditor) : M unit :=
  match editor with
  | Some ed =>
      if str_eqb (languageId h (document ed)) LANGUAGE_ID then
        modify (set_activeEditor (Some ed)) ;;
        s <- get ;;
        emit (Annotator_requestAnnotators ed (client s))
      else skip
  | None => skip
  end.

(** [javaExecutablePath || "java"] *)
Definition exePath_of (s : State) : jsstring :=
  or_default (javaExecutablePath s) (js "java").

(** [validateJava] up to the call of [cp.exec]; its promise settles in the
    callback, [validateJava_callback], or, when [cp.exec] itself throws, is
    rejected by the promise constructor with what was thrown (the event
    [ExecThrew]): either way [startServer] goes on in its own turn, after
    the [await]. *)
Definition validateJava : M unit :=
  s <- get ;;
  let exePath := exePath_of s in
  emit (console_log (js "exe path : " ++ exePath)) ;;
  emit (cp_exec (version_command exePath)) ;;
  await K_validateJava.

(** [doStartServer] up to [await configWatcher.watch()]. *)
Definition doStartServer : M unit :=
  emit configWatcher_watch ;;
  await K_watch.

Definition startServer : M unit :=
  s <- get ;;
  if negb (DEBUG_MODE s) then validateJava else doStartServer.

(** [startServer] after [await validateJava()]: the [catch] block, or on to
    [doStartServer]. *)
Definition startServer_validated (r : Settled unit) : M unit :=
  match r with
  | Rejected error =>
      emit (window_showErrorMessage (get_message error) None [TRY_AGAIN]) ;;
      await K_tryAgain
  | Resolved _ => doStartServer
  end.

(** The text of the message for a failed start. *)
Definition failed_to_start (reson : JsVal) : jsstring :=
  js "Failed to start " ++ [QUOTE] ++ js "EmmyLua" ++ [QUOTE]
    ++ js " language server!" ++ LF ++ to_str reson.

(** The [.catch] at the end of [startServer]. It also stands behind the
    [.then] that calls [onDidChangeActiveTextEditor]; the annotator, whose
    code is elsewhere, is taken not to throw. *)
Definition start_failed (reson : JsVal) : M unit :=
  emit (window_showErrorMessage (js_string (failed_to_start reson))
          None [TRY_AGAIN]) ;;
  await K_tryAgain.

(** The arguments the Java executable is spawned with. *)
Definition spawn_args (h : Host) : list jsstring :=
  let cp := path_resolve h [extensionPath h; js "server"; js "*"] in
  [js "-cp"; cp; js "com.tang.vscode.MainKt"; js "-XX:+UseConcMarkSweepGC"].

Definition server_options (h : Host) (s : State) : ServerOptions :=
  if DEBUG_MODE s then SocketConnect 5007
  else Executable (exePath_of s) (spawn_args h).

Definition client_options (h : Host) (files : Json) : LanguageClientOptions :=
  {| documentSelector := [(js "file", LANGUAGE_ID)];
     synchronize_configurationSection := [js "emmylua"; js "files.associations"];
     synchronize_fileEvents := [js "**/*.lua"];
     initializationOptions :=
       {| stdFolder := uri_file h (path_resolve h [extensionPath h; js "res/std"]);
          apiFolders := [];
          workspaceFolders := workspace_folders h;
          client_tag := js "vsc";
          configFiles := files |} |}.

(** [new LanguageClient(LANGUAGE_ID, "EmmyLua plugin for vscode.",
    serverOptions, clientOptions)] *)
Definition new_client (h : Host) (s : State) (files : Json) : LanguageClient :=
  {| client_ref := clientsCreated s;
     client_id := LANGUAGE_ID;
     client_name := js "EmmyLua plugin for vscode.";
     serverOptions := server_options h s;
     clientOptions := client_options h files |}.

(** [doStartServer] from the answer of the watcher to [await client.onReady()]. *)
Definition doStartServer_watched (h : Host) (r : Settled Json) : M unit :=
  match r with
  | Rejected reson => start_failed reson
  | Resolved files =>
      s <- get ;;
      let c := new_client h s files in
      emit (new_LanguageClient c) ;;
      modify (fun s => set_clientsCreated (S (clientsCreated s)) (set_client (Some c) s)) ;;
      emit (client_start c) ;;
      emit (client_onReady c) ;;
      await (K_onReady (client_ref c))
  end.

(** [progressBar.show()], [progressBar.hide()] and the assignment to
    [progressBar.text]. *)
Definition progressBar_show : M unit :=
  modify (fun s => set_progressBar
                     {| visible := true; bar_text := bar_text (progressBar s) |} s).
Definition progressBar_hide : M unit :=
  modify (fun s => set_progressBar
                     {| visible := false; bar_text := bar_text (progressBar s) |} s).
Definition progressBar_set_text (t : jsstring) : M unit :=
  modify (fun s => set_progressBar
                     {| visible := visible (progressBar s); bar_text := t |} s).

(** [d.percent >= 1] on doubles. *)
Definition percent_ge_1 (d : IProgressReport) : bool :=
  PrimFloat.leb 1%float (percent d).

(** The handler of the "emmy/progressReport" notification. *)
Definition onProgressReport (h : Host) (d : IProgressReport) : M unit :=
  progressBar_show ;;
  progressBar_set_text (text d) ;;
  if percent_ge_1 d then
    emit (setTimeout 3000) ;;
    await (K_hide (now h + 3000))
  else skip.

(** [doStartServer] after [await client.onReady()], and the [.then] of
    [startServer] behind it. [client] is the module variable as it is then; it
    holds a client whenever this continuation is pending, and reading
    [onNotification] off [undefined] would throw, which rejects the promise of
    [doStartServer] (the text of that error is the engine's). *)
Definition doStartServer_ready (h : Host) (r : Settled unit) : M unit :=
  match r with
  | Rejected reson => start_failed reson
  | Resolved _ =>
      emit (console_log (js "client ready")) ;;
      s <- get ;;
      match client s with
      | Some c =>
          emit (client_onNotification c (js "emmy/progressReport")) ;;
          modify (fun s => set_progressHandlers (client_ref c :: progressHandlers s) s) ;;
          onDidChangeActiveTextEditor h (window_activeTextEditor h)
      | None =>
          start_failed
            (js_Error (js "TypeError")
               (js "Cannot read properties of undefined (reading 'onNotification')"))
      end
  end.

Definition restartServer : M unit :=
  s <- get ;;
  match client s with
  | None => startServer
  | Some c =>
      emit (client_stop c) ;;
      await K_stopped
  end.

(** The function given to [client.stop().then]: nothing runs on rejection. *)
Definition restartServer_stopped (r : Settled unit) : M unit :=
  match r with
  | Resolved _ => startServer
  | Rejected _ => skip
  end.

Definition stopServer : M unit :=
  s <- get ;;
  match client s with
  | Some c => emit (client_stop c)
  | None => skip
  end.

Definition onConfigUpdate (e : Json) : M unit :=
  s <- get ;;
  match client s with
  | Some c => emit (client_sendRequest c (js "emmy/updateConfig") e)
  | None => skip
  end.

Definition onDidChangeConfiguration (h : Host) : M unit :=
  emit call_findJava ;;
  let newJavaExecutablePath := findJava h in
  s <- get ;;
  shouldRestart <-
    (if negb (path_eqb newJavaExecutablePath (javaExecutablePath s)) then
       modify (set_javaExecutablePath newJavaExecutablePath) ;;
       ret true
     else ret false) ;;
  s <- get ;;
  emit (Annotator_onDidChangeConfiguration (client s)) ;;
  if shouldRestart then restartServer else skip.

(** [path.replace(/\\/g, '/')] *)
Definition replace_backslashes (p : jsstring) : jsstring :=
  map (fun c => if c =? BACKSLASH then SLASH else c) p.

(** A number in a template literal; the only one is the port. *)
Definition number_to_str (n : N) : jsstring :=
  js (NilZero.string_of_uint (N.to_uint n)).

Definition debug_host : jsstring := js "localhost".
Definition debug_port : N := 9966.

(** The three [appendText] calls on the snippet. *)
Definition debug_snippet (dllPath : jsstring) : jsstring :=
  (js "package.cpath = package.cpath .. " ++ [QUOTE] ++ js ";"
     ++ replace_backslashes dllPath ++ [QUOTE] ++ LF)
  ++ (js "local dbg = require(" ++ [QUOTE] ++ js "emmy_core" ++ [QUOTE] ++ js ")" ++ LF)
  ++ (js "dbg.tcpListen(" ++ [QUOTE] ++ debug_host ++ [QUOTE] ++ js ", "
     ++ number_to_str debug_port ++ js ")").

(** [insertEmmyDebugCode] from the computed [dllPath] on. [insertSnippet] is
    called without a location: the host inserts at the selection. *)
Definition insertEmmyDebugCode_insert (ed : TextEditor) (dllPath : jsstring) : M unit :=
  emit (insertSnippet ed (debug_snippet dllPath)).

Definition insertEmmyDebugCode (h : Host) : M unit :=
  match window_activeTextEditor h with
  | None => skip
  | Some ed =>
      if negb (str_eqb (languageId h (document ed)) (js "lua")) then skip
      else
        let isWindows := str_eqb (process_platform h) (js "win32") in
        let isMac := str_eqb (process_platform h) (js "darwin") in
        let isLinux := str_eqb (process_platform h) (js "linux") in
        if isWindows then
          emit (window_showQuickPick [js "x64"; js "x86"]) ;;
          await (K_quickPick ed)
        else if isMac then
          insertEmmyDebugCode_insert ed
            (path_join h [extensionPath h; js "debugger/emmy/mac/emmy_core.dylib"])
        else if isLinux then
          insertEmmyDebugCode_insert ed
            (path_join h [extensionPath h; js "debugger/emmy/linux/emmy_core.so"])
        else insertEmmyDebugCode_insert ed []
  end.

(** [insertEmmyDebugCode] after [await showQuickPick(..)]. *)
Definition insertEmmyDebugCode_picked (h : Host) (ed : TextEditor)
    (arch : option jsstring) : M unit :=
  match arch with
  | Some a =>
      if truthy a then
        insertEmmyDebugCode_insert ed
          (path_join h [extensionPath h;
                        js "debugger/emmy/windows/" ++ a ++ js "/?.dll"])
      else skip
  | None => skip
  end.

Definition activate (h : Host) : M unit :=
  emit (console_log (js "emmy lua actived!")) ;;
  modify (set_DEBUG_MODE (path_eqb (env_EMMY_DEV h) (Some (js "true")))) ;;
  modify (set_progressBar {| visible := false; bar_text := [] |}) ;;
  emit call_findJava ;;
  modify (set_javaExecutablePath (findJava h)) ;;
  startServer.

Definition deactivate : M unit := stopServer.

(** ** The event loop

    One event is one callback run to completion. The first group are the
    subscriptions and commands [activate] registers, the second the
    continuations the host resumes. [ExecDone] is the callback of [cp.exec];
    [ExecThrew] is the rejection of validateJava's promise with what
    [cp.exec] threw instead of returning. *)
Inductive Event :=
| Activate
| Deactivate
| DidChangeConfiguration
| DidChangeTextDocument (doc : DocRef)
| DidChangeActiveTextEditor (editor : option TextEditor)
| Command_restartServer
| Command_insertEmmyDebugCode
| ConfigUpdate (e : Json)
| ProgressReport (c : nat) (d : IProgressReport)
| ExecDone (stderr : jsstring)
| ExecThrew (error : JsVal)
| MessageClosed (choice : option jsstring)
| WatchDone (r : Settled Json)
| ClientReady (c : nat) (r : Settled unit)
| ClientStopped (r : Settled unit)
| QuickPickDone (ed : TextEditor) (choice : option jsstring)
| TimerFired (due : N).

(** The continuation an event resumes, if it resumes one. *)
Definition resumes (ev : Event) : option Pending :=
  match ev with
  | ExecDone _ => Some K_validateJava
  | ExecThrew _ => Some K_validateJava
  | MessageClosed _ => Some K_tryAgain
  | WatchDone _ => Some K_watch
  | ClientReady c _ => Some (K_onReady c)
  | ClientStopped _ => Some K_stopped
  | QuickPickDone ed _ => Some (K_quickPick ed)
  | TimerFired due => Some (K_hide due)
  | _ => None
  end.

(** An event can happen when the continuation it resumes is pending; a timer
    fires no earlier than it is due, and a notification reaches a handler
    only on a client that has one. *)
Definition enabled (h : Host) (ev : Event) (s : State) : bool :=
  match resumes ev with
  | Some p => holds p (pending s)
  | None => true
  end
  && match ev with
     | TimerFired due => due <=? now h
     | ProgressReport c _ => existsb (Nat.eqb c) (progressHandlers s)
     | _ => true
     end.

Definition resume (ev : Event) (s : State) : State :=
  match resumes ev with
  | Some p => set_pending (take p (pending s)) s
  | None => s
  end.

Definition handler (h : Host) (ev : Event) : M unit :=
  match ev with
  | Activate => activate h
  | Deactivate => deactivate
  | DidChangeConfiguration => onDidChangeConfiguration h
  | DidChangeTextDocument doc => onDidChangeTextDocument h doc
  | DidChangeActiveTextEditor editor => onDidChangeActiveTextEditor h editor
  | Command_restartServer => restartServer
  | Command_insertEmmyDebugCode => insertEmmyDebugCode h
  | ConfigUpdate e => onConfigUpdate e
  | ProgressReport _ d => onProgressReport h d
  | ExecDone stderr => startServer_validated (validateJava_callback stderr)
  | ExecThrew error => startServer_validated (Rejected error)
  | MessageClosed _ => startServer
  | WatchDone r => doStartServer_watched h r
  | ClientReady _ r => doStartServer_ready h r
  | ClientStopped r => restartServer_stopped r
  | QuickPickDone ed choice => insertEmmyDebugCode_picked h ed choice
  | TimerFired _ => progressBar_hide
  end.

Definition step (h : Host) (ev : Event) (s : State) : option (State * list Effect) :=
  if enabled h ev s then
    let r := handler h ev (resume ev s) in
    Some (state_of r, effects_of r)
  else None.

(** A sequence of events, each with the surroundings it runs in. *)
Fixpoint run (evs : list (Host * Event)) (s : State) : option (State * list Effect) :=
  match evs with
  | [] => Some (s, [])
  | (h, ev) :: rest =>
      match step h ev s with
      | Some (s1, e1) =>
          match run rest s1 with
          | Some (s2, e2) => Some (s2, e1 ++ e2)
          | None => None
          end
      | None => None
      end
  end.

(** * The vocabulary of the properties *)

(** ** Version lines *)

(** [t] does not go on with a character of class [c]. *)
Definition starts_outside (c : N -> bool) (t : jsstring) : Prop :=
  match t with
  | [] => True
  | y :: _ => c y = false
  end.

(** The pattern behind the opening quote: group 1 with groups 2 to 4 in it,
    then the closing quote. *)
Definition re_version : regex :=
  Cat (Group 1
         (Cat (Group 2 (Plus digit))
              (Opt (Group 3
                      (Cat (Lit (js "."))
                      (Cat (Group 4 (Plus digit))
                           (PlusLazy dot)))))))
      (Lit [QUOTE]).

Definition OPENING : jsstring := js " version " ++ [QUOTE].

Definition keyword (kw : jsstring) : Prop :=
  kw = js "java" \/ kw = js "openjdk".

(** A non-empty run of decimal digits. *)
Definition numeral (ds : jsstring) : Prop :=
  ds <> [] /\ forallb digit ds = true.

(** What may stand between the minor number and the closing quote for the
    version to be read as written: at least one character, none of them a
    line terminator or a quote, the first not a digit. *)
Definition version_rest (us : jsstring) : Prop :=
  us <> [] /\ forallb dot us = true /\
  forallb (fun u => negb (u =? QUOTE)) us = true /\
  starts_outside digit us.

(** No match starts at any of the first [n] indices of [s]. *)
Fixpoint unmatched_before (r : regex) (n : nat) (s : jsstring) : bool :=
  match n with
  | O => true
  | S n' =>
      match match_here r s with
      | Some _ => false
      | None =>
          match s with
          | [] => true
          | _ :: s' => unmatched_before r n' s'
          end
      end
  end.

(** A version line: keyword, [ version ], and the version between quotes. *)
Definition version_line (kw version : jsstring) : jsstring :=
  kw ++ OPENING ++ version ++ [QUOTE].

(** The test of validateJava on the two numbers. *)
Definition java_1_8_or_above (major minor : N) : bool :=
  (1 <? major) || ((major =? 1) && (8 <=? minor)).

(** ** Continuations and rounds *)

(** How many times a continuation is pending. *)
Definition times (p : Pending) (l : list Pending) : nat :=
  List.length (filter (Pending_eqb p) l).

(** One failed attempt and the user's answer to it. *)
Definition failed_round (h : Host) (stderr : jsstring) : list (Host * Event) :=
  [(h, ExecDone stderr); (h, MessageClosed (Some TRY_AGAIN))].

Fixpoint failed_rounds (n : nat) (h : Host) (stderr : jsstring)
  : list (Host * Event) :=
  match n with
  | O => []
  | S n' => failed_round h stderr ++ failed_rounds n' h stderr
  end.

(** The host calls of one such round: the message, then the version query
    of the new attempt. *)
Definition round_effects (s : State) (error : JsVal) : list Effect :=
  [window_showErrorMessage (get_message error) None [TRY_AGAIN];
   console_log (js "exe path : " ++ exePath_of s);
   cp_exec (version_command (exePath_of s))].

(** * Sample hosts and states, for the worked examples *)

Fixpoint join_with (sep : jsstring) (parts : list jsstring) : jsstring :=
  match parts with
  | [] => []
  | [p] => p
  | p :: rest => p ++ sep ++ join_with sep rest
  end.

Definition lua_doc : DocRef := 1%nat.
Definition json_doc : DocRef := 2%nat.
Definition lua_editor : TextEditor := mkEditor 1 lua_doc.
Definition json_editor : TextEditor := mkEditor 2 json_doc.

Definition sample_host : Host :=
  {| now := 1000;
     env_EMMY_DEV := None;
     process_platform := js "linux";
     extensionPath := js "/ext";
     findJava := Some (js "/usr/bin/java");
     window_activeTextEditor := Some lua_editor;
     languageId := fun d => if Nat.eqb d lua_doc then js "lua" else js "json";
     workspace_folders := None;
     path_resolve := join_with (js "/");
     path_join := join_with (js "/");
     uri_file := fun p => js "file://" ++ p |}.

Definition with_platform (p : jsstring) (h : Host) : Host :=
  {| now := now h;
     env_EMMY_DEV := env_EMMY_DEV h;
     process_platform := p;
     extensionPath := extensionPath h;
     findJava := findJava h;
     window_activeTextEditor := window_activeTextEditor h;
     languageId := languageId h;
     workspace_folders := workspace_folders h;
     path_resolve := path_resolve h;
     path_join := path_join h;
     uri_file := uri_file h |}.

Definition with_editor (e : option TextEditor) (h : Host) : Host :=
  {| now := now h;
     env_EMMY_DEV := env_EMMY_DEV h;
     process_platform := process_platform h;
     extensionPath := extensionPath h;
     findJava := findJava h;
     window_activeTextEditor := e;
     languageId := languageId h;
     workspace_folders := workspace_folders h;
     path_resolve := path_resolve h;
     path_join := path_join h;
     uri_file := uri_file h |}.

Definition at_time (t : N) (h : Host) : Host :=
  {| now := t;
     env_EMMY_DEV := env_EMMY_DEV h;
     process_platform := process_platform h;
     extensionPath := extensionPath h;
     findJava := findJava h;
     window_activeTextEditor := window_activeTextEditor h;
     languageId := languageId h;
     workspace_folders := workspace_folders h;
     path_resolve := path_resolve h;
     path_join := path_join h;
     uri_file := uri_file h |}.

Definition sample_update : Json :=
  J_object [(js "type", J_number 1%float);
            (js "source", J_string (js "emmy.config.json"))].

Definition sample_client : LanguageClient :=
  new_client sample_host initial (J_array []).

Definition dev_state : State := set_DEBUG_MODE true initial.

(** A host on Windows, where [path.join] answers with backslashes. *)
Definition to_backslashes (p : jsstring) : jsstring :=
  map (fun c => if c =? SLASH then BACKSLASH else c) p.

Definition windows_host : Host :=
  {| now := 0;
     env_EMMY_DEV := None;
     process_platform := js "win32";
     extensionPath := js "C:\ext";
     findJava := None;
     window_activeTextEditor := Some lua_editor;
     languageId := languageId sample_host;
     workspace_folders := None;
     path_resolve := fun parts => join_with [BACKSLASH] (map to_backslashes parts);
     path_join := fun parts => join_with [BACKSLASH] (map to_backslashes parts);
     uri_file := uri_file sample_host |}.

Definition ready_state : State :=
  set_progressHandlers [0%nat] (set_client (Some sample_client) initial).

Definition report_done : IProgressReport :=
  {| text := js "Indexing done"; percent := 1%float |}.
Definition report_half : IProgressReport :=
  {| text := js "Indexing"; percent := 0.5%float |}.

Definition after_done : State :=
  set_pending [K_hide 4000]
    (set_progressBar {| visible := true; bar_text := js "Indexing done" |}
       ready_state).
Definition after_half : State :=
  set_progressBar {| visible := true; bar_text := js "Indexing" |} after_done.

Definition validating : State := set_pending [K_validateJava] initial.
Definition java7 : jsstring :=
  js "java version " ++ [QUOTE] ++ js "1.7.0_80" ++ [QUOTE].
Definition java11 : jsstring :=
  js "openjdk version " ++ [QUOTE] ++ js "11.0.2" ++ [QUOTE] ++ js " 2019-01-15".

(** A session: activation, an accepted runtime, the watcher's answer, the
    client ready, an edit of the active lua document, a configuration
    update. *)
Definition session : list (Host * Event) :=
  [(sample_host, Activate);
   (sample_host, ExecDone java11);
   (sample_host, WatchDone (Resolved (J_array [])));
   (sample_host, ClientReady 0 (Resolved tt));
   (sample_host, DidChangeTextDocument lua_doc);
   (sample_host, ConfigUpdate sample_update)].

Definition session_client : LanguageClient :=
  new_client sample_host
    (set_javaExecutablePath (Some (js "/usr/bin/java")) initial) (J_array []).

(** A startup whose handshake fails. *)
Definition failed_handshake : list (Host * Event) :=
  [(sample_host, Activate);
   (sample_host, ExecDone java11);
   (sample_host, WatchDone (Resolved (J_array [])));
   (sample_host, ClientReady 0 (Rejected (js_string (js "connection closed"))))].

(** The state it ends in: the message is up, and [client] holds the client
    that never connected. *)
Definition dead_client_state : State :=
  set_pending [K_tryAgain]
    (set_clientsCreated 1
       (set_client (Some session_client)
          (set_javaExecutablePath (Some (js "/usr/bin/java")) initial))).

(** * Further vocabulary *)

(** ** Version lines the pattern does not read *)

(** The two characters that may follow the major number in a match: the dot
    of the minor number and the closing quote. *)
Definition ends_major (c : N) : bool := (c =? 46) || (c =? QUOTE).

Definition java9ea : jsstring :=
  js "openjdk version " ++ [QUOTE] ++ js "9-ea" ++ [QUOTE] ++ LF
    ++ js "OpenJDK Runtime Environment (build 9-ea+181)".

(** ** Repeated commands *)

(** The host calls of one version query. *)
Definition query_effects (s : State) : list Effect :=
  [console_log (js "exe path : " ++ exePath_of s);
   cp_exec (version_command (exePath_of s))].

(** [n] times the same event in the same surroundings. *)
Definition again (n : nat) (h : Host) (ev : Event) : list (Host * Event) :=
  repeat (h, ev) n.

(** No event of the sequence is the watcher's answer, after which
    [doStartServer] constructs a client. *)
Definition constructs_no_client (evs : list (Host * Event)) : Prop :=
  Forall (fun hev => forall files, snd hev <> WatchDone (Resolved files)) evs.

(** ** Events that leave the progress indicator alone *)

(** An event that is neither the activation nor a progress report with a
    percent of at least 1. *)
Definition sets_no_timer (ev : Event) : Prop :=
  ev <> Activate /\
  forall c d, ev = ProgressReport c d -> percent_ge_1 d = false.

(** No hide of the indicator is pending. *)
Definition no_hide_pending (s : State) : Prop :=
  forall due, holds (K_hide due) (pending s) = false.


(** * Properties *)

(** ** The regular expression of validateJava *)

Lemma strip_prefix_app (p s : jsstring) : strip_prefix p (p ++ s) = Some s.
Proof.
  induction p as [|x p IH]; simpl; [reflexivity|].
  now rewrite N.eqb_refl.
Qed.

Lemma strip_prefix_inv (p s t : jsstring) :
  strip_prefix p s = Some t -> s = p ++ t.
Proof.
  revert s; induction p as [|x p IH]; intros s H; simpl in H.
  - now inversion H.
  - destruct s as [|y s]; [discriminate|].
    destruct (N.eqb_spec x y) as [->|]; [|discriminate].
    simpl. f_equal. now apply IH.
Qed.

Lemma consumed_app (a b : jsstring) : consumed (a ++ b) b = a.
Proof.
  unfold consumed. rewrite length_app.
  replace (List.length a + List.length b - List.length b)%nat
    with (List.length a) by lia.
  rewrite firstn_app, firstn_all, Nat.sub_diag. simpl. apply app_nil_r.
Qed.

Lemma orelse_None_r {R} (a : option R) : orelse a None = a.
Proof. now destruct a. Qed.

Lemma plus_greedy_outside {R} c t (k : jsstring -> option R) :
  starts_outside c t -> plus_greedy c t k = None.
Proof.
  destruct t as [|y t]; simpl; intros H; [reflexivity | now rewrite H].
Qed.

(** A greedy run takes the whole run when the rest of the pattern then
    matches. *)
Lemma plus_greedy_longest {R} c ds t (k : jsstring -> option R) x :
  ds <> [] -> forallb c ds = true -> starts_outside c t ->
  k t = Some x -> plus_greedy c (ds ++ t) k = Some x.
Proof.
  induction ds as [|d ds IH]; intros Hne Hall Ht Hk; [congruence|].
  simpl in Hall. apply andb_prop in Hall as [Hd Hall].
  simpl. rewrite Hd.
  destruct ds as [|d' ds'].
  - simpl. rewrite (plus_greedy_outside _ _ _ Ht). simpl. exact Hk.
  - rewrite IH; [reflexivity | discriminate | exact Hall | exact Ht | exact Hk].
Qed.

(** A lazy run stops at the first place where the rest of the pattern
    matches: here the rest of the pattern wants the character [stop], which
    the run does not contain. *)
Lemma plus_lazy_shortest {R} c stop us t (k : jsstring -> option R) x :
  us <> [] -> forallb c us = true ->
  forallb (fun u => negb (u =? stop)) us = true ->
  (forall u t', (u =? stop) = false -> k (u :: t') = None) ->
  k t = Some x -> plus_lazy c (us ++ t) k = Some x.
Proof.
  induction us as [|u us IH]; intros Hne Hall Hstop Hk Ht; [congruence|].
  simpl in Hall, Hstop.
  apply andb_prop in Hall as [Hu Hall].
  apply andb_prop in Hstop as [_ Hstop].
  simpl. rewrite Hu.
  destruct us as [|u' us'].
  - simpl. now rewrite Ht.
  - simpl in Hstop. apply andb_prop in Hstop as [Hu' Hstop'].
    change ((u' :: us') ++ t) with (u' :: (us' ++ t)) at 1.
    rewrite Hk by (now apply negb_true_iff).
    simpl orelse.
    apply IH; [discriminate | exact Hall | | exact Hk | exact Ht].
    simpl. now rewrite Hu', Hstop'.
Qed.

Lemma regexp_shape :
  regexp = Cat (Alt (Lit (js "java")) (Lit (js "openjdk"))) (Cat (Lit OPENING) re_version).
Proof. reflexivity. Qed.

Lemma match_keyword {R} kw s caps (k : jsstring -> captures -> option R) :
  keyword kw ->
  rmatch regexp (kw ++ OPENING ++ s) caps k = rmatch re_version s caps k.
Proof.
  intros [-> | ->]; rewrite regexp_shape; cbn [rmatch].
  - rewrite !strip_prefix_app.
    change (strip_prefix (js "openjdk") (js "java" ++ OPENING ++ s)) with (@None jsstring).
    apply orelse_None_r.
  - change (strip_prefix (js "java") (js "openjdk" ++ OPENING ++ s)) with (@None jsstring).
    cbn [orelse]. now rewrite !strip_prefix_app.
Qed.

(** Inputs on which the pattern can match at all start with a keyword and
    the opening. *)
Lemma match_here_inv s m :
  match_here regexp s = Some m ->
  exists kw t, keyword kw /\ s = kw ++ OPENING ++ t.
Proof.
  unfold match_here. rewrite regexp_shape. cbn [rmatch].
  destruct (strip_prefix (js "java") s) as [s1|] eqn:E1.
  - destruct (strip_prefix OPENING s1) as [s2|] eqn:E2.
    + intros _. exists (js "java"), s2. split; [now left|].
      apply strip_prefix_inv in E1, E2. now subst.
    + cbn [orelse].
      destruct (strip_prefix (js "openjdk") s) as [s3|] eqn:E3; [|discriminate].
      destruct (strip_prefix OPENING s3) as [s4|] eqn:E4; [|discriminate].
      intros _. exists (js "openjdk"), s4. split; [now right|].
      apply strip_prefix_inv in E3, E4. now subst.
  - cbn [orelse].
    destruct (strip_prefix (js "openjdk") s) as [s3|] eqn:E3; [|discriminate].
    destruct (strip_prefix OPENING s3) as [s4|] eqn:E4; [|discriminate].
    intros _. exists (js "openjdk"), s4. split; [now right|].
    apply strip_prefix_inv in E3, E4. now subst.
Qed.

Lemma exec_inv s m :
  exec regexp s = Some m ->
  exists pre kw t, keyword kw /\ s = pre ++ kw ++ OPENING ++ t.
Proof.
  induction s as [|c s IH]; simpl.
  - destruct (match_here regexp []) eqn:E; [|discriminate].
    intros _. apply match_here_inv in E as (kw & t & Hkw & Hs).
    now exists [], kw, t.
  - destruct (match_here regexp (c :: s)) eqn:E.
    + intros _. apply match_here_inv in E as (kw & t & Hkw & Hs).
      now exists [], kw, t.
    + intros H. apply IH in H as (pre & kw & t & Hkw & Hs).
      exists (c :: pre), kw, t. split; [exact Hkw|]. simpl. now f_equal.
Qed.

Lemma starts_outside_app c us t :
  us <> [] -> starts_outside c us -> starts_outside c (us ++ t).
Proof. destruct us; [congruence | simpl; auto]. Qed.

Lemma match_version_minor {R} maj min rest post caps
    (k : jsstring -> captures -> option R) x :
  numeral maj -> numeral min -> version_rest rest ->
  k post ((1%nat, maj ++ js "." ++ min ++ rest)
            :: (3%nat, js "." ++ min ++ rest)
            :: (4%nat, min) :: (2%nat, maj) :: caps) = Some x ->
  rmatch re_version (maj ++ js "." ++ min ++ rest ++ QUOTE :: post) caps k = Some x.
Proof.
  intros [Hmaj Dmaj] [Hmin Dmin] (Hrest & Drest & Qrest & Orest) Hk.
  unfold re_version. cbn [rmatch].
  apply plus_greedy_longest; [exact Hmaj | exact Dmaj | reflexivity |].
  rewrite strip_prefix_app.
  erewrite plus_greedy_longest;
    [reflexivity | exact Hmin | exact Dmin
     | now apply starts_outside_app |].
  apply (plus_lazy_shortest dot QUOTE);
    [exact Hrest | exact Drest | exact Qrest | |].
  - intros u t' Hu. cbn [strip_prefix]. rewrite N.eqb_sym in Hu.
    now rewrite Hu.
  - cbn [strip_prefix]. change (QUOTE =? QUOTE) with true. cbv iota.
    rewrite <- Hk. repeat f_equal.
    + replace (maj ++ js "." ++ min ++ rest ++ QUOTE :: post)
        with ((maj ++ js "." ++ min ++ rest) ++ QUOTE :: post)
        by now rewrite <- !app_assoc.
      apply consumed_app.
    + replace (js "." ++ min ++ rest ++ QUOTE :: post)
        with ((js "." ++ min ++ rest) ++ QUOTE :: post)
        by now rewrite <- !app_assoc.
      apply consumed_app.
    + replace (min ++ rest ++ QUOTE :: post)
        with (min ++ (rest ++ QUOTE :: post)) by reflexivity.
      apply consumed_app.
    + apply consumed_app.
Qed.

Lemma match_version_major {R} maj post caps
    (k : jsstring -> captures -> option R) x :
  numeral maj ->
  k post ((1%nat, maj) :: (2%nat, maj) :: caps) = Some x ->
  rmatch re_version (maj ++ QUOTE :: post) caps k = Some x.
Proof.
  intros [Hmaj Dmaj] Hk.
  unfold re_version. cbn [rmatch].
  apply plus_greedy_longest; [exact Hmaj | exact Dmaj | reflexivity |].
  simpl. rewrite <- Hk. now rewrite !consumed_app.
Qed.

Lemma exec_skip r pre s :
  unmatched_before r (List.length pre) (pre ++ s) = true ->
  exec r (pre ++ s) = exec r s.
Proof.
  induction pre as [|c pre IH]; [reflexivity|].
  simpl. destruct (match_here r (c :: pre ++ s)); [discriminate|].
  exact IH.
Qed.

Lemma exec_here r s m : match_here r s = Some m -> exec r s = Some m.
Proof. destruct s; simpl; now intros ->. Qed.

Lemma keyword_truthy pre kw t : keyword kw -> truthy (pre ++ kw ++ t) = true.
Proof. intros [-> | ->]; destruct pre; reflexivity. Qed.

Lemma validateJava_minor pre kw maj min rest post :
  keyword kw -> numeral maj -> numeral min -> version_rest rest ->
  unmatched_before regexp (List.length pre)
    (pre ++ version_line kw (maj ++ js "." ++ min ++ rest) ++ post) = true ->
  validateJava_callback
    (pre ++ version_line kw (maj ++ js "." ++ min ++ rest) ++ post) =
  if java_1_8_or_above (parse_digits maj) (parse_digits min) then Resolved tt
  else Rejected (js_string (msg_unsupported (maj ++ js "." ++ min ++ rest))).
Proof.
  intros Hkw Hmaj Hmin Hrest Hpre.
  unfold validateJava_callback.
  rewrite exec_skip by exact Hpre.
  unfold version_line. rewrite <- !app_assoc.
  rewrite keyword_truthy by exact Hkw.
  erewrite exec_here.
  2:{ unfold match_here. rewrite match_keyword by exact Hkw.
      change ([QUOTE] ++ post) with (QUOTE :: post).
      apply match_version_minor; [exact Hmaj | exact Hmin | exact Hrest|].
      reflexivity. }
  reflexivity.
Qed.

Lemma validateJava_major pre kw maj post :
  keyword kw -> numeral maj ->
  unmatched_before regexp (List.length pre)
    (pre ++ version_line kw maj ++ post) = true ->
  validateJava_callback (pre ++ version_line kw maj ++ post) =
  if 1 <? parse_digits maj then Resolved tt
  else Rejected (js_string (msg_unsupported maj)).
Proof.
  intros Hkw Hmaj Hpre.
  unfold validateJava_callback.
  rewrite exec_skip by exact Hpre.
  unfold version_line. rewrite <- !app_assoc.
  rewrite keyword_truthy by exact Hkw.
  erewrite exec_here.
  2:{ unfold match_here. rewrite match_keyword by exact Hkw.
      change ([QUOTE] ++ post) with (QUOTE :: post).
      apply match_version_major; [exact Hmaj|]. reflexivity. }
  cbn [capture Nat.eqb parseInt_or_0 group to_str].
  destruct (1 <? parse_digits maj) eqn:E1; [reflexivity|].
  simpl orb.
  destruct (parse_digits maj =? 1); reflexivity.
Qed.

Lemma validateJava_unmatched stderr :
  exec regexp stderr = None ->
  validateJava_callback stderr = Rejected (js_string msg_cant_find).
Proof.
  intros H. unfold validateJava_callback. rewrite H. now destruct (truthy stderr).
Qed.

(** X15. For a standard error output whose first match of the pattern is
    a version line [(java|openjdk) version "<major>.<minor><rest>"] with at
    least one character of <rest> before the closing quote (no line
    terminator or quote in it, the first not a digit), validateJava resolves
    exactly when major > 1, or major = 1 and minor >= 8, and otherwise rejects
    with the unsupported-version message that quotes the version; a version
    line with the major number alone counts minor as 0, so it resolves exactly
    when major > 1; an output on which the pattern has no match, in particular
    one with no keyword followed by [ version ] and a quote, rejects with the
    runtime-missing message. *)
Theorem validateJava_version_check :
  (forall pre kw maj min rest post,
      keyword kw -> numeral maj -> numeral min -> version_rest rest ->
      unmatched_before regexp (List.length pre)
        (pre ++ version_line kw (maj ++ js "." ++ min ++ rest) ++ post) = true ->
      validateJava_callback
        (pre ++ version_line kw (maj ++ js "." ++ min ++ rest) ++ post) =
      if (1 <? parse_digits maj)
         || ((parse_digits maj =? 1) && (8 <=? parse_digits min))
      then Resolved tt
      else Rejected (js_string (msg_unsupported (maj ++ js "." ++ min ++ rest))))
  /\ (forall pre kw maj post,
      keyword kw -> numeral maj ->
      unmatched_before regexp (List.length pre)
        (pre ++ version_line kw maj ++ post) = true ->
      validateJava_callback (pre ++ version_line kw maj ++ post) =
      if 1 <? parse_digits maj then Resolved tt
      else Rejected (js_string (msg_unsupported maj)))
  /\ (forall stderr,
      exec regexp stderr = None ->
      validateJava_callback stderr = Rejected (js_string msg_cant_find))
  /\ (forall stderr,
      (forall pre kw t, keyword kw -> stderr <> pre ++ kw ++ OPENING ++ t) ->
      validateJava_callback stderr = Rejected (js_string msg_cant_find)).
Proof.
  split; [|split; [|split]].
  - exact validateJava_minor.
  - exact validateJava_major.
  - exact validateJava_unmatched.
  - intros stderr H. apply validateJava_unmatched.
    destruct (exec regexp stderr) as [m|] eqn:E; [|reflexivity].
    apply exec_inv in E as (pre & kw & t & Hkw & Hs).
    now destruct (H pre kw t Hkw).
Qed.

Lemma numeral_intro ds :
  truthy ds && forallb digit ds = true -> numeral ds.
Proof.
  intros H. apply andb_prop in H as [H1 H2].
  split; [destruct ds; [discriminate H1 | discriminate] | exact H2].
Defined.

Lemma version_rest_intro us :
  truthy us && forallb dot us && forallb (fun u => negb (u =? QUOTE)) us
    && negb (match us with [] => false | u :: _ => digit u end) = true ->
  version_rest us.
Proof.
  intros H.
  apply andb_prop in H as [H H4]. apply andb_prop in H as [H H3].
  apply andb_prop in H as [H1 H2].
  destruct us as [|u us]; [discriminate H1|].
  repeat split; [discriminate | exact H2 | exact H3 |].
  simpl. now apply negb_true_iff.
Defined.

(** The version lines of the test list: "1.8.0_202" and "9.0.1" resolve,
    "1.7.0" is unsupported, "11" resolves, and an output without a version
    line misses the runtime. *)
Lemma validateJava_version_check_witness :
  validateJava_callback
    (js "java version " ++ [QUOTE] ++ js "1.8.0_202" ++ [QUOTE] ++ LF
       ++ js "Java(TM) SE Runtime Environment") = Resolved tt
  /\ validateJava_callback
       (js "Picked up _JAVA_OPTIONS: -Xmx1g" ++ LF
          ++ js "openjdk version " ++ [QUOTE] ++ js "9.0.1" ++ [QUOTE]) = Resolved tt
  /\ validateJava_callback
       (js "java version " ++ [QUOTE] ++ js "1.7.0" ++ [QUOTE]) =
     Rejected (js_string (js "Unsupported Java version: 1.7.0, please install Java 1.8 or above."))
  /\ validateJava_callback
       (js "openjdk version " ++ [QUOTE] ++ js "11" ++ [QUOTE] ++ js " 2018-09-25") =
     Resolved tt
  /\ validateJava_callback (js "'java' is not recognized as an internal or external command") =
     Rejected (js_string msg_cant_find)
  /\ validateJava_callback [] = Rejected (js_string msg_cant_find).
Proof.
  destruct validateJava_version_check as (Hminor & Hmajor & Hnone & Hform).
  split; [|split; [|split; [|split; [|split]]]].
  - apply (Hminor [] (js "java") (js "1") (js "8") (js ".0_202")
             (LF ++ js "Java(TM) SE Runtime Environment"));
      [now left | now apply numeral_intro | now apply numeral_intro
       | now apply version_rest_intro | reflexivity].
  - apply (Hminor (js "Picked up _JAVA_OPTIONS: -Xmx1g" ++ LF)
             (js "openjdk") (js "9") (js "0") (js ".1") []);
      [now right | now apply numeral_intro | now apply numeral_intro
       | now apply version_rest_intro | reflexivity].
  - apply (Hminor [] (js "java") (js "1") (js "7") (js ".0") []);
      [now left | now apply numeral_intro | now apply numeral_intro
       | now apply version_rest_intro | reflexivity].
  - apply (Hmajor [] (js "openjdk") (js "11") (js " 2018-09-25"));
      [now right | now apply numeral_intro | reflexivity].
  - apply Hnone. reflexivity.
  - apply Hform. intros pre kw t [-> | ->] H; destruct pre; discriminate H.
Defined.

(** C1. The code at the failing inputs. The claim, the comment [java 1.8+]
    in the source and the text of the messages all want a version 1.8 or
    above accepted. The version line [java version "1.8"] has major 1 and
    minor 8, yet the pattern wants one more character between the minor
    number and the closing quote ([.+?] where [.*?] was meant), finds no
    match, and validateJava rejects with the runtime-missing message. With
    two digits of minor and nothing behind them the pattern gives one digit
    back: [java version "1.10"] is read as minor 1 and rejected as
    unsupported. *)
Lemma validateJava_two_component_version :
  java_1_8_or_above (parse_digits (js "1")) (parse_digits (js "8")) = true
  /\ validateJava_callback (version_line (js "java") (js "1" ++ js "." ++ js "8")) =
     Rejected (js_string msg_cant_find)
  /\ java_1_8_or_above (parse_digits (js "1")) (parse_digits (js "10")) = true
  /\ validateJava_callback (version_line (js "java") (js "1" ++ js "." ++ js "10")) =
     Rejected (js_string (msg_unsupported (js "1.10"))).
Proof. repeat split. Qed.

(** ** Pending continuations *)

Lemma editor_eqb_eq a b : editor_eqb a b = true <-> a = b.
Proof.
  destruct a as [i d], b as [j e]. unfold editor_eqb. simpl.
  rewrite andb_true_iff, !Nat.eqb_eq. split.
  - now intros [-> ->].
  - intros H. now inversion H.
Qed.

Lemma Pending_eqb_eq a b : Pending_eqb a b = true <-> a = b.
Proof.
  destruct a, b; simpl; split; intros H;
    try discriminate; try reflexivity;
    try (apply Nat.eqb_eq in H; now subst);
    try (apply N.eqb_eq in H; now subst);
    try (apply editor_eqb_eq in H; now subst);
    inversion H; subst;
    first [apply Nat.eqb_refl | apply N.eqb_refl | now apply editor_eqb_eq].
Qed.

Lemma Pending_eqb_refl a : Pending_eqb a a = true.
Proof. now apply Pending_eqb_eq. Qed.

Lemma Pending_eqb_neq a b : a <> b -> Pending_eqb a b = false.
Proof.
  intros H. destruct (Pending_eqb a b) eqn:E; [|reflexivity].
  now apply Pending_eqb_eq in E.
Qed.

Lemma holds_app p l1 l2 : holds p (l1 ++ l2) = holds p l1 || holds p l2.
Proof.
  induction l1 as [|q l1 IH]; simpl; [reflexivity|].
  now rewrite IH, orb_assoc.
Qed.

Lemma holds_last p l : holds p (l ++ [p]) = true.
Proof.
  rewrite holds_app. simpl. rewrite Pending_eqb_refl. apply orb_true_r.
Qed.

Lemma times_app p l1 l2 : times p (l1 ++ l2) = (times p l1 + times p l2)%nat.
Proof. unfold times. now rewrite filter_app, length_app. Qed.

Lemma times_take_other p q l :
  p <> q -> times p (take q l) = times p l.
Proof.
  intros Hne. unfold times.
  induction l as [|r l IH]; simpl; [reflexivity|].
  destruct (Pending_eqb q r) eqn:E.
  - apply Pending_eqb_eq in E. subst r.
    now rewrite (Pending_eqb_neq p q Hne).
  - simpl. destruct (Pending_eqb p r); simpl; now rewrite IH.
Qed.

Lemma holds_times p l : holds p l = true <-> (0 < times p l)%nat.
Proof.
  unfold times. induction l as [|q l IH]; simpl.
  - split; [discriminate | lia].
  - destruct (Pending_eqb p q); simpl; [split; [lia | reflexivity] | exact IH].
Qed.

(** ** Strings and paths *)

Lemma str_eqb_eq a b : str_eqb a b = true <-> a = b.
Proof.
  revert b; induction a as [|x a IH]; intros [|y b]; simpl;
    try (split; [discriminate | discriminate]); [now split|].
  rewrite andb_true_iff, N.eqb_eq, IH. split.
  - now intros [-> ->].
  - intros H. now inversion H.
Qed.

Lemma str_eqb_neq a b : a <> b -> str_eqb a b = false.
Proof.
  intros H. destruct (str_eqb a b) eqn:E; [|reflexivity].
  now apply str_eqb_eq in E.
Qed.

Lemma path_eqb_eq a b : path_eqb a b = true <-> a = b.
Proof.
  destruct a as [x|], b as [y|]; simpl; try (split; discriminate); [|now split].
  rewrite str_eqb_eq. split; [now intros -> | intros H; now inversion H].
Qed.

(** Runs the monad's plumbing, and nothing of the handlers' own tests. *)
Ltac monad :=
  cbv beta iota zeta
      delta [bind get modify emit skip ret await state_of effects_of fst snd];
  cbn [app].

(** ** Annotator requests *)

(** C7 (as amended). A document-change event whose document is the document
    of the editor the module variable [activeEditor] holds (the last editor
    on a [lua] document that [onDidChangeActiveTextEditor] was given, none
    before that) and has the language identifier [lua] issues exactly one
    annotator request, and so does an active-editor-change event whose editor
    shows a [lua] document; an event of either kind whose document has
    another language identifier issues none, and neither does a change of a
    document that is not the one of [activeEditor], nor a change to no
    editor. *)
Theorem annotator_request_per_event :
  forall (h : Host) (s : State),
    (forall doc ed,
        activeEditor s = Some ed -> document ed = doc ->
        languageId h doc = LANGUAGE_ID ->
        onDidChangeTextDocument h doc s =
        (tt, s, [Annotator_requestAnnotators ed (client s)]))
    /\ (forall doc,
        languageId h doc <> LANGUAGE_ID ->
        onDidChangeTextDocument h doc s = (tt, s, []))
    /\ (forall doc,
        (forall ed, activeEditor s = Some ed -> document ed <> doc) ->
        onDidChangeTextDocument h doc s = (tt, s, []))
    /\ (forall ed,
        languageId h (document ed) = LANGUAGE_ID ->
        onDidChangeActiveTextEditor h (Some ed) s =
        (tt, set_activeEditor (Some ed) s,
         [Annotator_requestAnnotators ed (client s)]))
    /\ (forall ed,
        languageId h (document ed) <> LANGUAGE_ID ->
        onDidChangeActiveTextEditor h (Some ed) s = (tt, s, []))
    /\ onDidChangeActiveTextEditor h None s = (tt, s, []).
Proof.
  intros h s. repeat apply conj.
  - intros doc ed Ha Hd Hl. unfold onDidChangeTextDocument. monad.
    rewrite Ha, Hd, Hl, Nat.eqb_refl.
    now rewrite (proj2 (str_eqb_eq _ _) eq_refl).
  - intros doc Hl. unfold onDidChangeTextDocument. monad.
    destruct (activeEditor s) as [ed|]; [|reflexivity].
    destruct (Nat.eqb_spec (document ed) doc) as [->|]; [|reflexivity].
    now rewrite (str_eqb_neq _ _ Hl).
  - intros doc Hd. unfold onDidChangeTextDocument. monad.
    destruct (activeEditor s) as [ed|] eqn:Ha; [|reflexivity].
    specialize (Hd ed eq_refl).
    destruct (Nat.eqb_spec (document ed) doc) as [E|]; [contradiction|reflexivity].
  - intros ed Hl. unfold onDidChangeActiveTextEditor. rewrite Hl.
    now rewrite (proj2 (str_eqb_eq _ _) eq_refl).
  - intros ed Hl. unfold onDidChangeActiveTextEditor.
    now rewrite (str_eqb_neq _ _ Hl).
  - reflexivity.
Qed.

Lemma annotator_request_per_event_witness :
  onDidChangeTextDocument sample_host lua_doc
    (set_activeEditor (Some lua_editor) initial) =
  (tt, set_activeEditor (Some lua_editor) initial,
   [Annotator_requestAnnotators lua_editor None])
  /\ onDidChangeTextDocument sample_host json_doc
       (set_activeEditor (Some json_editor) initial) =
     (tt, set_activeEditor (Some json_editor) initial, [])
  /\ onDidChangeTextDocument sample_host lua_doc initial = (tt, initial, [])
  /\ onDidChangeActiveTextEditor sample_host (Some lua_editor) initial =
     (tt, set_activeEditor (Some lua_editor) initial,
      [Annotator_requestAnnotators lua_editor None])
  /\ onDidChangeActiveTextEditor sample_host (Some json_editor) initial =
     (tt, initial, []).
Proof.
  split; [|split; [|split; [|split]]].
  - apply (proj1 (annotator_request_per_event sample_host
                    (set_activeEditor (Some lua_editor) initial)));
      reflexivity.
  - apply (proj1 (proj2 (annotator_request_per_event sample_host
                           (set_activeEditor (Some json_editor) initial)))).
    discriminate.
  - apply (proj1 (proj2 (proj2 (annotator_request_per_event sample_host initial)))).
    discriminate.
  - apply (proj1 (proj2 (proj2 (proj2
             (annotator_request_per_event sample_host initial))))).
    reflexivity.
  - apply (proj1 (proj2 (proj2 (proj2 (proj2
             (annotator_request_per_event sample_host initial)))))).
    discriminate.
Defined.

(** C7 as stated does not hold. Right after [activate], the active editor
    of the window shows a [lua] document, but the variable [activeEditor] is
    still unset (it is written only by [onDidChangeActiveTextEditor]): a
    change of that document issues no annotator request. *)
Lemma change_before_editor_is_remembered :
  window_activeTextEditor sample_host = Some lua_editor
  /\ languageId sample_host (document lua_editor) = LANGUAGE_ID
  /\ run [(sample_host, Activate);
          (sample_host, DidChangeTextDocument (document lua_editor))] initial =
     Some (set_pending [K_validateJava]
             (set_javaExecutablePath (Some (js "/usr/bin/java")) initial),
           [console_log (js "emmy lua actived!"); call_findJava;
            console_log (js "exe path : /usr/bin/java");
            cp_exec ([QUOTE] ++ js "/usr/bin/java" ++ [QUOTE] ++ js " -version")]).
Proof. repeat split. Qed.

(** ** The handlers, case by case *)

Lemma startServer_dev s :
  DEBUG_MODE s = true ->
  startServer s =
  (tt, set_pending (pending s ++ [K_watch]) s, [configWatcher_watch]).
Proof. intros H. unfold startServer, doStartServer. monad. now rewrite H. Qed.

Lemma startServer_validating s :
  DEBUG_MODE s = false ->
  startServer s =
  (tt, set_pending (pending s ++ [K_validateJava]) s,
   [console_log (js "exe path : " ++ exePath_of s);
    cp_exec (version_command (exePath_of s))]).
Proof. intros H. unfold startServer, validateJava. monad. now rewrite H. Qed.

Lemma restartServer_fresh s :
  client s = None -> restartServer s = startServer s.
Proof.
  intros H. unfold restartServer. monad. rewrite H.
  now destruct (startServer s) as [[[] s'] e].
Qed.

Lemma restartServer_running s c :
  client s = Some c ->
  restartServer s =
  (tt, set_pending (pending s ++ [K_stopped]) s, [client_stop c]).
Proof. intros H. unfold restartServer. monad. now rewrite H. Qed.

(** Every handler leaves the continuations that were pending where they
    are, and adds at most to their end. *)
Ltac split_cases :=
  repeat match goal with
    | |- context [match ?x with _ => _ end] =>
        lazymatch x with
        | context [match _ with _ => _ end] => fail
        | _ => destruct x eqn:?; monad
        end
    end.

Lemma startServer_pending s :
  exists l, pending (state_of (startServer s)) = pending s ++ l.
Proof.
  destruct (DEBUG_MODE s) eqn:E.
  - rewrite startServer_dev by exact E. now exists [K_watch].
  - rewrite startServer_validating by exact E. now exists [K_validateJava].
Qed.

Lemma startServer_client s : client (state_of (startServer s)) = client s.
Proof.
  destruct (DEBUG_MODE s) eqn:E.
  - now rewrite startServer_dev by exact E.
  - now rewrite startServer_validating by exact E.
Qed.

Lemma restartServer_pending s :
  exists l, pending (state_of (restartServer s)) = pending s ++ l.
Proof.
  destruct (client s) as [c|] eqn:E.
  - rewrite (restartServer_running s c E). now exists [K_stopped].
  - rewrite restartServer_fresh by exact E. apply startServer_pending.
Qed.

Lemma restartServer_client s : client (state_of (restartServer s)) = client s.
Proof.
  destruct (client s) as [c|] eqn:E.
  - now rewrite (restartServer_running s c E).
  - rewrite restartServer_fresh by exact E. rewrite startServer_client. exact E.
Qed.

Ltac added_none := exists []; symmetry; apply app_nil_r.
Ltac added_some := cbn [pending set_pending set_client set_clientsCreated
                        set_progressBar set_progressHandlers set_activeEditor];
                   eexists; reflexivity.

Lemma handler_pending h ev s :
  exists l, pending (state_of (handler h ev s)) = pending s ++ l.
Proof.
  destruct ev; cbn [handler].
  - (* activate *)
    unfold activate. monad.
    match goal with |- context [startServer ?s0] =>
      destruct (startServer_pending s0) as [l Hl];
      destruct (startServer s0) as [[[] s1] e1] end.
    monad. exists l. exact Hl.
  - unfold deactivate, stopServer. monad. split_cases; added_none.
  - unfold onDidChangeConfiguration. monad.
    destruct (negb (path_eqb (findJava h) (javaExecutablePath s))); monad.
    + match goal with |- context [restartServer ?s0] =>
        destruct (restartServer_pending s0) as [l Hl];
        destruct (restartServer s0) as [[[] s1] e1] end.
      monad. exists l. exact Hl.
    + added_none.
  - unfold onDidChangeTextDocument. monad. split_cases; added_none.
  - unfold onDidChangeActiveTextEditor. split_cases; added_none.
  - apply restartServer_pending.
  - unfold insertEmmyDebugCode, insertEmmyDebugCode_insert.
    split_cases; first [added_none | added_some].
  - unfold onConfigUpdate. monad. split_cases; added_none.
  - unfold onProgressReport, progressBar_show, progressBar_set_text. monad.
    split_cases; first [added_none | added_some].
  - unfold startServer_validated, doStartServer.
    split_cases; added_some.
  - unfold startServer_validated. monad. added_some.
  - apply startServer_pending.
  - unfold doStartServer_watched, start_failed.
    split_cases; added_some.
  - unfold doStartServer_ready, start_failed, onDidChangeActiveTextEditor. monad.
    split_cases; first [added_none | added_some].
  - unfold restartServer_stopped. destruct r.
    + apply startServer_pending.
    + added_none.
  - unfold insertEmmyDebugCode_picked, insertEmmyDebugCode_insert.
    split_cases; added_none.
  - unfold progressBar_hide. monad. added_none.
Qed.

Lemma handler_client h ev s :
  client s <> None -> client (state_of (handler h ev s)) <> None.
Proof.
  intros H. destruct ev; cbn [handler].
  - unfold activate. monad.
    match goal with |- context [startServer ?s0] =>
      pose proof (startServer_client s0) as Hc;
      destruct (startServer s0) as [[[] s1] e1] end.
    monad. cbn in Hc. now rewrite Hc.
  - unfold deactivate, stopServer. monad. split_cases; cbn [client set_progressBar set_pending set_activeEditor]; congruence.
  - unfold onDidChangeConfiguration. monad.
    destruct (negb (path_eqb (findJava h) (javaExecutablePath s))); monad.
    + match goal with |- context [restartServer ?s0] =>
        pose proof (restartServer_client s0) as Hc;
        destruct (restartServer s0) as [[[] s1] e1] end.
      monad. cbn in Hc. now rewrite Hc.
    + cbn [client set_progressBar set_pending set_activeEditor]; congruence.
  - unfold onDidChangeTextDocument. monad. split_cases; cbn [client set_progressBar set_pending set_activeEditor]; congruence.
  - unfold onDidChangeActiveTextEditor. split_cases; cbn [client set_progressBar set_pending set_activeEditor]; congruence.
  - now rewrite restartServer_client.
  - unfold insertEmmyDebugCode, insertEmmyDebugCode_insert.
    split_cases; cbn [client set_progressBar set_pending set_activeEditor]; congruence.
  - unfold onConfigUpdate. monad. split_cases; cbn [client set_progressBar set_pending set_activeEditor]; congruence.
  - unfold onProgressReport, progressBar_show, progressBar_set_text. monad.
    split_cases; cbn [client set_progressBar set_pending set_activeEditor]; congruence.
  - unfold startServer_validated, doStartServer. split_cases; cbn [client set_progressBar set_pending set_activeEditor]; congruence.
  - unfold startServer_validated. monad. cbn [client set_pending]. congruence.
  - now rewrite startServer_client.
  - unfold doStartServer_watched, start_failed.
    split_cases; cbn [client set_pending set_client set_clientsCreated]; congruence.
  - unfold doStartServer_ready, start_failed, onDidChangeActiveTextEditor. monad.
    split_cases; cbn [client set_progressHandlers set_activeEditor set_pending];
      congruence.
  - unfold restartServer_stopped. destruct r.
    + now rewrite startServer_client.
    + monad. assumption.
  - unfold insertEmmyDebugCode_picked, insertEmmyDebugCode_insert.
    split_cases; cbn [client set_progressBar set_pending set_activeEditor]; congruence.
  - unfold progressBar_hide. monad. assumption.
Qed.

Lemma step_keeps_client h ev s s' effs :
  client s <> None -> step h ev s = Some (s', effs) -> client s' <> None.
Proof.
  unfold step. intros Hc H.
  destruct (enabled h ev s); [|discriminate].
  inversion H; subst. apply handler_client.
  unfold resume. now destruct (resumes ev).
Qed.

Lemma run_keeps_client evs :
  forall s s' effs,
    client s <> None -> run evs s = Some (s', effs) -> client s' <> None.
Proof.
  induction evs as [|[h ev] evs IH]; intros s s' effs Hc H; simpl in H.
  - now inversion H; subst.
  - destruct (step h ev s) as [[s1 e1]|] eqn:E1; [|discriminate].
    destruct (run evs s1) as [[s2 e2]|] eqn:E2; [|discriminate].
    inversion H; subst.
    eapply IH; [|exact E2]. eapply step_keeps_client; eassumption.
Qed.

(** Unfolds one step down to the handler it runs. *)
Ltac step_event :=
  unfold step, enabled, resume; cbn [resumes handler andb].

(** ** Configuration updates from the watcher *)

(** C10. A configuration-update event that comes while [client] is unset
    does nothing: no request is sent and the state is what it was, so nothing
    is kept for later. While [client] is set, the event is forwarded as it is
    in one [emmy/updateConfig] request; and [client], once set, stays set
    whatever happens, so from then on every update event is forwarded. *)
Theorem config_update_forwarding :
  (forall h s e,
      client s = None -> step h (ConfigUpdate e) s = Some (s, []))
  /\ (forall h s e c,
      client s = Some c ->
      step h (ConfigUpdate e) s =
      Some (s, [client_sendRequest c (js "emmy/updateConfig") e]))
  /\ (forall evs s s' effs h e,
      client s <> None -> run evs s = Some (s', effs) ->
      exists c,
        client s' = Some c /\
        step h (ConfigUpdate e) s' =
        Some (s', [client_sendRequest c (js "emmy/updateConfig") e])).
Proof.
  assert (Hset : forall h s e c, client s = Some c ->
            step h (ConfigUpdate e) s =
            Some (s, [client_sendRequest c (js "emmy/updateConfig") e])).
  { intros h s e c H. step_event.
    unfold onConfigUpdate. monad. now rewrite H. }
  split; [|split].
  - intros h s e H. step_event.
    unfold onConfigUpdate. monad. now rewrite H.
  - exact Hset.
  - intros evs s s' effs h e Hc Hrun.
    pose proof (run_keeps_client evs s s' effs Hc Hrun) as Hc'.
    destruct (client s') as [c|] eqn:E; [|congruence].
    exists c. split; [reflexivity|]. now apply Hset.
Qed.

Lemma config_update_forwarding_witness :
  step sample_host (ConfigUpdate sample_update) initial = Some (initial, [])
  /\ step sample_host (ConfigUpdate sample_update)
       (set_client (Some sample_client) initial) =
     Some (set_client (Some sample_client) initial,
           [client_sendRequest sample_client (js "emmy/updateConfig") sample_update])
  /\ exists c,
       client (set_pending [K_stopped] (set_client (Some sample_client) initial))
       = Some c /\
       step sample_host (ConfigUpdate sample_update)
         (set_pending [K_stopped] (set_client (Some sample_client) initial)) =
       Some (set_pending [K_stopped] (set_client (Some sample_client) initial),
             [client_sendRequest c (js "emmy/updateConfig") sample_update]).
Proof.
  destruct config_update_forwarding as (Hnone & Hsome & Hlater).
  split; [|split].
  - apply Hnone. reflexivity.
  - apply Hsome. reflexivity.
  - apply (Hlater [(sample_host, Command_restartServer)]
             (set_client (Some sample_client) initial) _
             [client_stop sample_client]).
    + discriminate.
    + reflexivity.
Defined.

(** ** Configuration changes *)





(** ** Restart *)

(** C4 (as amended). [restartServer] with [client] unset, which is the case
    only while no client has been constructed, is [startServer], call for
    call and state for state. With [client] set, whatever has become of that
    client's connection, it only calls [stop] on that client and leaves a
    continuation; [startServer] runs when the host resolves the stop, and
    does not run if the stop is rejected. *)
Theorem restart_sequence :
  (forall h s,
      client s = None ->
      step h Command_restartServer s =
      Some (state_of (startServer s), effects_of (startServer s)))
  /\ (forall h s c,
      client s = Some c ->
      step h Command_restartServer s =
      Some (set_pending (pending s ++ [K_stopped]) s, [client_stop c]))
  /\ (forall h s,
      holds K_stopped (pending s) = true ->
      let s0 := set_pending (take K_stopped (pending s)) s in
      step h (ClientStopped (Resolved tt)) s =
      Some (state_of (startServer s0), effects_of (startServer s0)))
  /\ (forall h s reason,
      holds K_stopped (pending s) = true ->
      step h (ClientStopped (Rejected reason)) s =
      Some (set_pending (take K_stopped (pending s)) s, [])).
Proof.
  repeat apply conj.
  - intros h s H. step_event.
    now rewrite restartServer_fresh.
  - intros h s c H. step_event.
    now rewrite (restartServer_running s c H).
  - intros h s H s0. step_event.
    now rewrite H.
  - intros h s reason H. step_event.
    now rewrite H.
Qed.

Lemma restart_sequence_witness :
  step sample_host Command_restartServer initial =
  Some (set_pending [K_validateJava] initial,
        [console_log (js "exe path : java");
         cp_exec ([QUOTE] ++ js "java" ++ [QUOTE] ++ js " -version")])
  /\ step sample_host Command_restartServer
       (set_client (Some sample_client) initial) =
     Some (set_pending [K_stopped] (set_client (Some sample_client) initial),
           [client_stop sample_client])
  /\ step sample_host (ClientStopped (Resolved tt))
       (set_pending [K_stopped] (set_client (Some sample_client) initial)) =
     Some (set_pending [K_validateJava] (set_client (Some sample_client) initial),
           [console_log (js "exe path : java");
            cp_exec ([QUOTE] ++ js "java" ++ [QUOTE] ++ js " -version")])
  /\ step sample_host (ClientStopped (Rejected js_undefined))
       (set_pending [K_stopped] (set_client (Some sample_client) initial)) =
     Some (set_client (Some sample_client) initial, []).
Proof.
  destruct restart_sequence as (Hfresh & Hstop & Hthen & Hnot).
  split; [|split; [|split]].
  - apply (Hfresh sample_host initial). reflexivity.
  - apply (Hstop sample_host (set_client (Some sample_client) initial)
             sample_client).
    reflexivity.
  - apply (Hthen sample_host
             (set_pending [K_stopped] (set_client (Some sample_client) initial))).
    reflexivity.
  - apply (Hnot sample_host
             (set_pending [K_stopped] (set_client (Some sample_client) initial))).
    reflexivity.
Defined.

(** C4 as stated does not hold. After a handshake that failed, no connection
    exists, but [client] still holds the client that was constructed: the
    restart command does not do what a fresh start does (the version query);
    it calls [stop] on the dead client and waits, and when that stop is
    rejected nothing is started at all. *)
Lemma restart_after_failed_handshake :
  option_map fst (run failed_handshake initial) = Some dead_client_state
  /\ step sample_host Command_restartServer dead_client_state =
     Some (set_pending [K_tryAgain; K_stopped] dead_client_state,
           [client_stop session_client])
  /\ effects_of (startServer dead_client_state) =
     [console_log (js "exe path : /usr/bin/java");
      cp_exec ([QUOTE] ++ js "/usr/bin/java" ++ [QUOTE] ++ js " -version")]
  /\ step sample_host (ClientStopped (Rejected js_undefined))
       (set_pending [K_tryAgain; K_stopped] dead_client_state) =
     Some (set_pending [K_tryAgain] dead_client_state, []).
Proof. repeat split. Qed.

(** ** Development mode *)

Lemma watched_step h s files :
  holds K_watch (pending s) = true ->
  let s0 := set_pending (take K_watch (pending s)) s in
  let c := new_client h s0 files in
  step h (WatchDone (Resolved files)) s =
  Some (set_pending (pending s0 ++ [K_onReady (client_ref c)])
          (set_clientsCreated (S (clientsCreated s0)) (set_client (Some c) s0)),
        [new_LanguageClient c; client_start c; client_onReady c]).
Proof.
  intros H s0 c. step_event.
  rewrite H. reflexivity.
Qed.

(** C5. With the development flag set, [startServer] goes straight to
    [doStartServer]: it runs no Java version query, whatever
    [javaExecutablePath] holds, and the client it then constructs connects to
    the socket on port 5007. With the flag unset, [startServer] runs the
    version query first; [doStartServer] follows when the query is accepted,
    and the client it constructs spawns the Java executable with the
    arguments [-cp <extensionPath>/server/* com.tang.vscode.MainKt
    -XX:+UseConcMarkSweepGC]. *)
Theorem development_mode :
  (forall s,
      DEBUG_MODE s = true ->
      startServer s =
      (tt, set_pending (pending s ++ [K_watch]) s, [configWatcher_watch]))
  /\ (forall h s files,
      DEBUG_MODE s = true -> holds K_watch (pending s) = true ->
      let c := new_client h (set_pending (take K_watch (pending s)) s) files in
      serverOptions c = SocketConnect 5007 /\
      exists s',
        step h (WatchDone (Resolved files)) s =
        Some (s', [new_LanguageClient c; client_start c; client_onReady c])
        /\ client s' = Some c)
  /\ (forall s,
      DEBUG_MODE s = false ->
      startServer s =
      (tt, set_pending (pending s ++ [K_validateJava]) s,
       [console_log (js "exe path : " ++ exePath_of s);
        cp_exec (version_command (exePath_of s))]))
  /\ (forall h s stderr,
      holds K_validateJava (pending s) = true ->
      validateJava_callback stderr = Resolved tt ->
      step h (ExecDone stderr) s =
      Some (set_pending (take K_validateJava (pending s) ++ [K_watch]) s,
            [configWatcher_watch]))
  /\ (forall h s files,
      DEBUG_MODE s = false -> holds K_watch (pending s) = true ->
      let c := new_client h (set_pending (take K_watch (pending s)) s) files in
      serverOptions c = Executable (exePath_of s) (spawn_args h) /\
      exists s',
        step h (WatchDone (Resolved files)) s =
        Some (s', [new_LanguageClient c; client_start c; client_onReady c])
        /\ client s' = Some c).
Proof.
  repeat apply conj.
  - exact startServer_dev.
  - intros h s files D H c. split.
    + subst c. cbn [new_client serverOptions]. unfold server_options.
      cbn [DEBUG_MODE set_pending]. now rewrite D.
    + eexists. split; [apply (watched_step h s files H)|reflexivity].
  - exact startServer_validating.
  - intros h s stderr H V. step_event.
    rewrite H, V. reflexivity.
  - intros h s files D H c. split.
    + subst c. cbn [new_client serverOptions]. unfold server_options.
      cbn [DEBUG_MODE set_pending]. now rewrite D.
    + eexists. split; [apply (watched_step h s files H)|reflexivity].
Qed.

Lemma development_mode_witness :
  startServer (set_javaExecutablePath (Some (js "/no/such/java")) dev_state) =
  (tt, set_pending [K_watch]
         (set_javaExecutablePath (Some (js "/no/such/java")) dev_state),
   [configWatcher_watch])
  /\ serverOptions
       (new_client sample_host
          (set_pending (take K_watch (pending (set_pending [K_watch] dev_state)))
             (set_pending [K_watch] dev_state)) J_null) = SocketConnect 5007
  /\ startServer initial =
     (tt, set_pending [K_validateJava] initial,
      [console_log (js "exe path : java");
       cp_exec ([QUOTE] ++ js "java" ++ [QUOTE] ++ js " -version")])
  /\ step sample_host
       (ExecDone (js "openjdk version " ++ [QUOTE] ++ js "11.0.2" ++ [QUOTE]))
       (set_pending [K_validateJava] initial) =
     Some (set_pending [K_watch] initial, [configWatcher_watch])
  /\ serverOptions
       (new_client sample_host
          (set_pending (take K_watch (pending (set_pending [K_watch] initial)))
             (set_pending [K_watch] initial)) J_null) =
     Executable (js "java")
       [js "-cp"; js "/ext/server/*"; js "com.tang.vscode.MainKt";
        js "-XX:+UseConcMarkSweepGC"].
Proof.
  destruct development_mode as (Hdev & Hsock & Hval & Hok & Hspawn).
  split; [|split; [|split; [|split]]].
  - apply Hdev. reflexivity.
  - apply (Hsock sample_host (set_pending [K_watch] dev_state) J_null);
      reflexivity.
  - apply Hval. reflexivity.
  - apply (Hok sample_host (set_pending [K_validateJava] initial)); reflexivity.
  - apply (Hspawn sample_host (set_pending [K_watch] initial) J_null);
      reflexivity.
Defined.

(** ** The insert-debug-snippet command *)

(** The text of the snippet, spelled out: three lines, the library path with
    its backslashes turned into slashes in the first, the host and the port
    in the third. *)
Lemma debug_snippet_text p :
  debug_snippet p =
  js "package.cpath = package.cpath .. " ++ [QUOTE] ++ js ";"
    ++ replace_backslashes p ++ [QUOTE] ++ LF
    ++ js "local dbg = require(" ++ [QUOTE] ++ js "emmy_core" ++ [QUOTE]
    ++ js ")" ++ LF
    ++ js "dbg.tcpListen(" ++ [QUOTE] ++ js "localhost" ++ [QUOTE]
    ++ js ", 9966)".
Proof.
  unfold debug_snippet. rewrite <- !app_assoc. reflexivity.
Qed.

Lemma insert_on_lua h s ed :
  window_activeTextEditor h = Some ed ->
  languageId h (document ed) = js "lua" ->
  insertEmmyDebugCode h s =
  if str_eqb (process_platform h) (js "win32") then
    (tt, set_pending (pending s ++ [K_quickPick ed]) s,
     [window_showQuickPick [js "x64"; js "x86"]])
  else if str_eqb (process_platform h) (js "darwin") then
    (tt, s, [insertSnippet ed (debug_snippet
       (path_join h [extensionPath h; js "debugger/emmy/mac/emmy_core.dylib"]))])
  else if str_eqb (process_platform h) (js "linux") then
    (tt, s, [insertSnippet ed (debug_snippet
       (path_join h [extensionPath h; js "debugger/emmy/linux/emmy_core.so"]))])
  else (tt, s, [insertSnippet ed (debug_snippet [])]).
Proof.
  intros He Hl. unfold insertEmmyDebugCode. rewrite He, Hl.
  rewrite (proj2 (str_eqb_eq (js "lua") (js "lua")) eq_refl). cbn [negb].
  destruct (str_eqb (process_platform h) (js "win32")); [reflexivity|].
  destruct (str_eqb (process_platform h) (js "darwin")); [reflexivity|].
  destruct (str_eqb (process_platform h) (js "linux")); reflexivity.
Qed.

(** C8. The command makes no edit when there is no active editor, when the
    active document is not a [lua] document, and when, on Windows, the
    architecture prompt is closed without a choice (the call itself only
    opens the prompt). In every other case it inserts the three-line
    template into the active editor ([insertSnippet] without a location, so
    at the selection), with the library path of the platform, the host
    [localhost] and the port 9966. *)
Theorem insert_debug_snippet :
  forall h s,
    (window_activeTextEditor h = None ->
     insertEmmyDebugCode h s = (tt, s, []))
    /\ (forall ed,
        window_activeTextEditor h = Some ed ->
        languageId h (document ed) <> js "lua" ->
        insertEmmyDebugCode h s = (tt, s, []))
    /\ (forall ed,
        window_activeTextEditor h = Some ed ->
        languageId h (document ed) = js "lua" ->
        process_platform h = js "win32" ->
        insertEmmyDebugCode h s =
        (tt, set_pending (pending s ++ [K_quickPick ed]) s,
         [window_showQuickPick [js "x64"; js "x86"]]))
    /\ (forall ed,
        holds (K_quickPick ed) (pending s) = true ->
        step h (QuickPickDone ed None) s =
        Some (set_pending (take (K_quickPick ed) (pending s)) s, []))
    /\ (forall ed arch,
        holds (K_quickPick ed) (pending s) = true -> arch <> [] ->
        step h (QuickPickDone ed (Some arch)) s =
        Some (set_pending (take (K_quickPick ed) (pending s)) s,
              [insertSnippet ed (debug_snippet
                 (path_join h [extensionPath h;
                               js "debugger/emmy/windows/" ++ arch ++ js "/?.dll"]))]))
    /\ (forall ed,
        window_activeTextEditor h = Some ed ->
        languageId h (document ed) = js "lua" ->
        process_platform h = js "darwin" ->
        insertEmmyDebugCode h s =
        (tt, s, [insertSnippet ed (debug_snippet
           (path_join h [extensionPath h; js "debugger/emmy/mac/emmy_core.dylib"]))]))
    /\ (forall ed,
        window_activeTextEditor h = Some ed ->
        languageId h (document ed) = js "lua" ->
        process_platform h = js "linux" ->
        insertEmmyDebugCode h s =
        (tt, s, [insertSnippet ed (debug_snippet
           (path_join h [extensionPath h; js "debugger/emmy/linux/emmy_core.so"]))]))
    /\ (forall ed,
        window_activeTextEditor h = Some ed ->
        languageId h (document ed) = js "lua" ->
        process_platform h <> js "win32" ->
        exists dllPath,
          insertEmmyDebugCode h s =
          (tt, s, [insertSnippet ed (debug_snippet dllPath)]))
    /\ (forall dllPath,
        debug_snippet dllPath =
        js "package.cpath = package.cpath .. " ++ [QUOTE] ++ js ";"
          ++ replace_backslashes dllPath ++ [QUOTE] ++ LF
          ++ js "local dbg = require(" ++ [QUOTE] ++ js "emmy_core" ++ [QUOTE]
          ++ js ")" ++ LF
          ++ js "dbg.tcpListen(" ++ [QUOTE] ++ js "localhost" ++ [QUOTE]
          ++ js ", 9966)").
Proof.
  intros h s. repeat apply conj.
  - intros H. unfold insertEmmyDebugCode. now rewrite H.
  - intros ed He Hl. unfold insertEmmyDebugCode. rewrite He.
    now rewrite (str_eqb_neq _ _ Hl).
  - intros ed He Hl Hp. rewrite (insert_on_lua h s ed He Hl), Hp. reflexivity.
  - intros ed H. step_event. now rewrite H.
  - intros ed arch H Ha. step_event. rewrite H.
    unfold insertEmmyDebugCode_picked. destruct arch; [congruence|reflexivity].
  - intros ed He Hl Hp. rewrite (insert_on_lua h s ed He Hl), Hp. reflexivity.
  - intros ed He Hl Hp. rewrite (insert_on_lua h s ed He Hl), Hp. reflexivity.
  - intros ed He Hl Hp. rewrite (insert_on_lua h s ed He Hl).
    rewrite (str_eqb_neq _ _ Hp).
    destruct (str_eqb (process_platform h) (js "darwin")); [eexists; reflexivity|].
    destruct (str_eqb (process_platform h) (js "linux")); eexists; reflexivity.
  - exact debug_snippet_text.
Qed.

Lemma insert_debug_snippet_witness :
  insertEmmyDebugCode (with_editor None sample_host) initial = (tt, initial, [])
  /\ insertEmmyDebugCode (with_editor (Some json_editor) sample_host) initial =
     (tt, initial, [])
  /\ insertEmmyDebugCode windows_host initial =
     (tt, set_pending [K_quickPick lua_editor] initial,
      [window_showQuickPick [js "x64"; js "x86"]])
  /\ step windows_host (QuickPickDone lua_editor None)
       (set_pending [K_quickPick lua_editor] initial) = Some (initial, [])
  /\ step windows_host (QuickPickDone lua_editor (Some (js "x64")))
       (set_pending [K_quickPick lua_editor] initial) =
     Some (initial,
           [insertSnippet lua_editor
              (js "package.cpath = package.cpath .. " ++ [QUOTE]
                 ++ js ";C:/ext/debugger/emmy/windows/x64/?.dll" ++ [QUOTE] ++ LF
                 ++ js "local dbg = require(" ++ [QUOTE] ++ js "emmy_core"
                 ++ [QUOTE] ++ js ")" ++ LF
                 ++ js "dbg.tcpListen(" ++ [QUOTE] ++ js "localhost" ++ [QUOTE]
                 ++ js ", 9966)")])
  /\ insertEmmyDebugCode (with_platform (js "darwin") sample_host) initial =
     (tt, initial,
      [insertSnippet lua_editor
         (debug_snippet (js "/ext/debugger/emmy/mac/emmy_core.dylib"))])
  /\ insertEmmyDebugCode sample_host initial =
     (tt, initial,
      [insertSnippet lua_editor
         (debug_snippet (js "/ext/debugger/emmy/linux/emmy_core.so"))]).
Proof.
  split; [|split; [|split; [|split; [|split; [|split]]]]].
  - apply (proj1 (insert_debug_snippet (with_editor None sample_host) initial)).
    reflexivity.
  - apply (proj1 (proj2 (insert_debug_snippet
                           (with_editor (Some json_editor) sample_host) initial))
             json_editor); [reflexivity | discriminate].
  - apply (proj1 (proj2 (proj2 (insert_debug_snippet windows_host initial)))
             lua_editor); reflexivity.
  - apply (proj1 (proj2 (proj2 (proj2
             (insert_debug_snippet windows_host
                (set_pending [K_quickPick lua_editor] initial)))))
             lua_editor).
    reflexivity.
  - apply (proj1 (proj2 (proj2 (proj2 (proj2
             (insert_debug_snippet windows_host
                (set_pending [K_quickPick lua_editor] initial))))))
             lua_editor (js "x64")); [reflexivity | discriminate].
  - apply (proj1 (proj2 (proj2 (proj2 (proj2 (proj2
             (insert_debug_snippet (with_platform (js "darwin") sample_host)
                initial)))))) lua_editor); reflexivity.
  - apply (proj1 (proj2 (proj2 (proj2 (proj2 (proj2 (proj2
             (insert_debug_snippet sample_host initial))))))) lua_editor);
      reflexivity.
Defined.

(** C9. On a platform that is none of [win32], [darwin] and [linux], the
    command on an active [lua] document does not return early: it inserts
    the template with the empty string for the library path. *)
Theorem insert_debug_snippet_other_platform :
  forall h s ed,
    window_activeTextEditor h = Some ed ->
    languageId h (document ed) = js "lua" ->
    process_platform h <> js "win32" ->
    process_platform h <> js "darwin" ->
    process_platform h <> js "linux" ->
    insertEmmyDebugCode h s =
    (tt, s,
     [insertSnippet ed
        (js "package.cpath = package.cpath .. " ++ [QUOTE] ++ js ";"
           ++ [QUOTE] ++ LF
           ++ js "local dbg = require(" ++ [QUOTE] ++ js "emmy_core" ++ [QUOTE]
           ++ js ")" ++ LF
           ++ js "dbg.tcpListen(" ++ [QUOTE] ++ js "localhost" ++ [QUOTE]
           ++ js ", 9966)")]).
Proof.
  intros h s ed He Hl Hw Hm Hx.
  rewrite (insert_on_lua h s ed He Hl).
  rewrite (str_eqb_neq _ _ Hw), (str_eqb_neq _ _ Hm), (str_eqb_neq _ _ Hx).
  reflexivity.
Qed.

Lemma insert_debug_snippet_other_platform_witness :
  insertEmmyDebugCode (with_platform (js "freebsd") sample_host) initial =
  (tt, initial,
   [insertSnippet lua_editor
      (js "package.cpath = package.cpath .. " ++ [QUOTE] ++ js ";"
         ++ [QUOTE] ++ LF
         ++ js "local dbg = require(" ++ [QUOTE] ++ js "emmy_core" ++ [QUOTE]
         ++ js ")" ++ LF
         ++ js "dbg.tcpListen(" ++ [QUOTE] ++ js "localhost" ++ [QUOTE]
         ++ js ", 9966)")]).
Proof.
  apply (insert_debug_snippet_other_platform
           (with_platform (js "freebsd") sample_host) initial lua_editor);
    first [reflexivity | discriminate].
Defined.

(** ** Progress reports and the delayed hide *)

Lemma resumes_hide ev due :
  resumes ev = Some (K_hide due) -> ev = TimerFired due.
Proof. destruct ev; simpl; intros H; inversion H; reflexivity. Qed.

Lemma step_keeps_timer h ev s s' effs due :
  step h ev s = Some (s', effs) -> ev <> TimerFired due ->
  (times (K_hide due) (pending s) <= times (K_hide due) (pending s'))%nat.
Proof.
  unfold step. intros H Hev.
  destruct (enabled h ev s); [|discriminate].
  inversion H; subst; clear H.
  destruct (handler_pending h ev (resume ev s)) as [l Hl].
  rewrite Hl, times_app.
  unfold resume. destruct (resumes ev) as [p|] eqn:E.
  - cbn [pending set_pending]. rewrite times_take_other; [lia|].
    intros Hp. subst p. now apply resumes_hide in E.
  - lia.
Qed.

Lemma run_keeps_timer due evs :
  forall s s' effs,
    run evs s = Some (s', effs) ->
    Forall (fun hev => snd hev <> TimerFired due) evs ->
    (times (K_hide due) (pending s) <= times (K_hide due) (pending s'))%nat.
Proof.
  induction evs as [|[h ev] evs IH]; intros s s' effs H Hall; simpl in H.
  - inversion H; subst. lia.
  - destruct (step h ev s) as [[s1 e1]|] eqn:E1; [|discriminate].
    destruct (run evs s1) as [[s2 e2]|] eqn:E2; [|discriminate].
    inversion H; subst. inversion Hall; subst.
    pose proof (step_keeps_timer h ev s s1 e1 due E1 H2).
    pose proof (IH s1 s' e2 E2 H3). lia.
Qed.

Lemma report_step h s c d s' effs :
  step h (ProgressReport c d) s = Some (s', effs) ->
  s' = (if percent_ge_1 d
        then set_pending (pending s ++ [K_hide (now h + 3000)])
        else fun x => x)
         (set_progressBar {| visible := true; bar_text := text d |} s)
  /\ effs = if percent_ge_1 d then [setTimeout 3000] else [].
Proof.
  step_event. destruct (existsb (Nat.eqb c) (progressHandlers s)); [|discriminate].
  unfold onProgressReport, progressBar_show, progressBar_set_text. monad.
  destruct (percent_ge_1 d); monad; intros H; inversion H; subst; now split.
Qed.

Lemma timer_step h due s :
  holds (K_hide due) (pending s) = true -> due <= now h ->
  step h (TimerFired due) s =
  Some (set_progressBar
          {| visible := false; bar_text := bar_text (progressBar s) |}
          (set_pending (take (K_hide due) (pending s)) s), []).
Proof.
  intros H Hdue. step_event. rewrite H.
  now rewrite (proj2 (N.leb_le _ _) Hdue).
Qed.

(** C3. The progress-report handler shows the indicator with the text of the
    report, and sets the 3-second timer exactly when the percent of the report
    is at least 1. No event takes a pending hide away but the firing of that
    very timer; when it fires, the indicator is hidden. So after a report
    with percent at least 1, whatever follows short of the timer firing,
    reports with a smaller percent among it, the hide set for 3 seconds
    after that report is still due and hides the indicator. *)
Theorem progress_hide_timer :
  (forall h s c d s' effs,
      step h (ProgressReport c d) s = Some (s', effs) ->
      visible (progressBar s') = true
      /\ bar_text (progressBar s') = text d
      /\ (percent_ge_1 d = true ->
          effs = [setTimeout 3000]
          /\ pending s' = pending s ++ [K_hide (now h + 3000)])
      /\ (percent_ge_1 d = false -> effs = [] /\ pending s' = pending s))
  /\ (forall h ev s s' effs due,
      step h ev s = Some (s', effs) -> ev <> TimerFired due ->
      (times (K_hide due) (pending s) <= times (K_hide due) (pending s'))%nat)
  /\ (forall h due s,
      holds (K_hide due) (pending s) = true -> due <= now h ->
      exists s',
        step h (TimerFired due) s = Some (s', [])
        /\ visible (progressBar s') = false)
  /\ (forall h0 c d s s1 e1 evs s2 e2 h,
      percent_ge_1 d = true ->
      step h0 (ProgressReport c d) s = Some (s1, e1) ->
      run evs s1 = Some (s2, e2) ->
      Forall (fun hev => snd hev <> TimerFired (now h0 + 3000)) evs ->
      now h0 + 3000 <= now h ->
      exists s3,
        step h (TimerFired (now h0 + 3000)) s2 = Some (s3, [])
        /\ visible (progressBar s3) = false).
Proof.
  assert (Hfire : forall h due s,
             holds (K_hide due) (pending s) = true -> due <= now h ->
             exists s',
               step h (TimerFired due) s = Some (s', [])
               /\ visible (progressBar s') = false).
  { intros h due s H Hdue. eexists. split; [now apply timer_step|reflexivity]. }
  split; [|split; [|split]].
  - intros h s c d s' effs H.
    apply report_step in H as [-> ->].
    destruct (percent_ge_1 d); repeat split; try reflexivity; discriminate.
  - exact step_keeps_timer.
  - exact Hfire.
  - intros h0 c d s s1 e1 evs s2 e2 h Hd H1 Hrun Hall Hdue.
    apply Hfire; [|exact Hdue].
    apply holds_times.
    pose proof (run_keeps_timer _ evs s1 s2 e2 Hrun Hall) as Hkeep.
    apply report_step in H1 as [-> _]. rewrite Hd in Hkeep.
    cbn [pending set_pending] in Hkeep.
    rewrite times_app in Hkeep. unfold times at 2 in Hkeep.
    cbn [filter] in Hkeep. rewrite Pending_eqb_refl in Hkeep.
    cbn [List.length] in Hkeep. lia.
Qed.

(** A report with percent 1 at time 1000, a report with percent 0.5 at time
    2000 (which shows the indicator again and sets no timer), and the timer
    of the first report firing at time 4000. *)
Lemma progress_hide_timer_witness :
  pending after_done = pending ready_state ++ [K_hide (1000 + 3000)]
  /\ pending after_half = pending after_done
  /\ exists s3,
      step (at_time 4000 sample_host) (TimerFired (1000 + 3000)) after_half
      = Some (s3, [])
      /\ visible (progressBar s3) = false.
Proof.
  destruct progress_hide_timer as (Hreport & Hkeep & Hfire & Hlater).
  split; [|split].
  - apply (Hreport (at_time 1000 sample_host) ready_state 0%nat report_done
             after_done [setTimeout 3000] eq_refl).
    reflexivity.
  - apply (Hreport (at_time 2000 sample_host) after_done 0%nat report_half
             after_half [] eq_refl).
    reflexivity.
  - apply (Hlater (at_time 1000 sample_host) 0%nat report_done ready_state
             after_done [setTimeout 3000]
             [(at_time 2000 sample_host, ProgressReport 0 report_half)]
             after_half [] (at_time 4000 sample_host)).
    + reflexivity.
    + reflexivity.
    + reflexivity.
    + repeat constructor. discriminate.
    + cbn. discriminate.
Defined.

(** ** Failure and retry *)

Lemma run_app l1 l2 s :
  run (l1 ++ l2) s =
  match run l1 s with
  | Some (s1, e1) =>
      match run l2 s1 with
      | Some (s2, e2) => Some (s2, e1 ++ e2)
      | None => None
      end
  | None => None
  end.
Proof.
  revert s; induction l1 as [|[h ev] l1 IH]; intros s; simpl.
  - now destruct (run l2 s) as [[s2 e2]|].
  - destruct (step h ev s) as [[s1 e1]|]; [|reflexivity].
    rewrite IH. destruct (run l1 s1) as [[s2 e2]|]; [|reflexivity].
    destruct (run l2 s2) as [[s3 e3]|]; [|reflexivity].
    now rewrite app_assoc.
Qed.

Lemma validation_failed_step h s stderr e :
  holds K_validateJava (pending s) = true ->
  validateJava_callback stderr = Rejected e ->
  step h (ExecDone stderr) s =
  Some (set_pending (take K_validateJava (pending s) ++ [K_tryAgain]) s,
        [window_showErrorMessage (get_message e) None [TRY_AGAIN]]).
Proof. intros H V. step_event. now rewrite H, V. Qed.

Lemma message_closed_step h s choice :
  holds K_tryAgain (pending s) = true ->
  step h (MessageClosed choice) s =
  Some (state_of (startServer (set_pending (take K_tryAgain (pending s)) s)),
        effects_of (startServer (set_pending (take K_tryAgain (pending s)) s))).
Proof. intros H. step_event. now rewrite H. Qed.

Lemma failed_round_run h s stderr e :
  DEBUG_MODE s = false ->
  holds K_validateJava (pending s) = true ->
  validateJava_callback stderr = Rejected e ->
  exists s',
    run (failed_round h stderr) s = Some (s', round_effects s e)
    /\ DEBUG_MODE s' = false
    /\ javaExecutablePath s' = javaExecutablePath s
    /\ client s' = client s
    /\ holds K_validateJava (pending s') = true.
Proof.
  intros D H V. unfold failed_round. cbn [run].
  rewrite (validation_failed_step h s stderr e H V).
  rewrite message_closed_step by (cbn [pending set_pending]; apply holds_last).
  rewrite startServer_validating by exact D.
  eexists. split; [reflexivity|].
  cbn [state_of fst snd DEBUG_MODE javaExecutablePath client pending set_pending].
  repeat split; try assumption. apply holds_last.
Qed.

Lemma failed_rounds_run n h stderr e :
  forall s,
    DEBUG_MODE s = false ->
    holds K_validateJava (pending s) = true ->
    validateJava_callback stderr = Rejected e ->
    exists s',
      run (failed_rounds n h stderr) s =
      Some (s', concat (repeat (round_effects s e) n))
      /\ DEBUG_MODE s' = false
      /\ javaExecutablePath s' = javaExecutablePath s
      /\ client s' = client s
      /\ holds K_validateJava (pending s') = true.
Proof.
  induction n as [|n IH]; intros s D H V.
  - exists s. now repeat split.
  - cbn [failed_rounds]. rewrite run_app.
    destruct (failed_round_run h s stderr e D H V)
      as (s1 & R1 & D1 & J1 & C1 & H1).
    rewrite R1.
    destruct (IH s1 D1 H1 V) as (s2 & R2 & D2 & J2 & C2 & H2).
    rewrite R2. exists s2.
    assert (E : round_effects s1 e = round_effects s e).
    { unfold round_effects, exePath_of. now rewrite J1. }
    rewrite E. cbn [repeat concat].
    repeat split; try assumption; congruence.
Qed.

(** C2 (as amended). After a failure of the runtime validation, of the
    configuration watcher or of the client's start, the callback does one
    thing: it shows an error message with the single action [Try again]
    (through showErrorMessage without options, so not as a modal dialog) and
    leaves [startServer] as the continuation of that message. When the user
    chooses [Try again], [startServer] runs from the top, the runtime
    validation included. No attempt is counted: after any number of failed
    attempts, each answered with [Try again], the next version query is
    under way as it was after the first. *)
Theorem startup_failure_retry :
  (forall h s stderr e,
      holds K_validateJava (pending s) = true ->
      validateJava_callback stderr = Rejected e ->
      step h (ExecDone stderr) s =
      Some (set_pending (take K_validateJava (pending s) ++ [K_tryAgain]) s,
            [window_showErrorMessage (get_message e) None [TRY_AGAIN]]))
  /\ (forall h s reson,
      holds K_watch (pending s) = true ->
      step h (WatchDone (Rejected reson)) s =
      Some (set_pending (take K_watch (pending s) ++ [K_tryAgain]) s,
            [window_showErrorMessage (js_string (failed_to_start reson)) None
               [TRY_AGAIN]]))
  /\ (forall h s c reson,
      holds (K_onReady c) (pending s) = true ->
      step h (ClientReady c (Rejected reson)) s =
      Some (set_pending (take (K_onReady c) (pending s) ++ [K_tryAgain]) s,
            [window_showErrorMessage (js_string (failed_to_start reson)) None
               [TRY_AGAIN]]))
  /\ (forall h s,
      holds K_tryAgain (pending s) = true ->
      let s0 := set_pending (take K_tryAgain (pending s)) s in
      step h (MessageClosed (Some TRY_AGAIN)) s =
      Some (state_of (startServer s0), effects_of (startServer s0)))
  /\ (forall n h s stderr e,
      DEBUG_MODE s = false ->
      holds K_validateJava (pending s) = true ->
      validateJava_callback stderr = Rejected e ->
      exists s',
        run (failed_rounds n h stderr) s =
        Some (s', concat (repeat (round_effects s e) n))
        /\ DEBUG_MODE s' = false
        /\ javaExecutablePath s' = javaExecutablePath s
        /\ client s' = client s
        /\ holds K_validateJava (pending s') = true).
Proof.
  split; [|split; [|split; [|split]]].
  - exact validation_failed_step.
  - intros h s reson H. step_event. now rewrite H.
  - intros h s c reson H. step_event. now rewrite H.
  - intros h s H s0. now apply message_closed_step.
  - intros n h s stderr e. apply failed_rounds_run.
Qed.

Lemma startup_failure_retry_witness :
  step sample_host (ExecDone java7) validating =
  Some (set_pending [K_tryAgain] initial,
        [window_showErrorMessage js_undefined None [TRY_AGAIN]])
  /\ step sample_host (WatchDone (Rejected (js_Error (js "Error") (js "no workspace"))))
       (set_pending [K_watch] initial) =
     Some (set_pending [K_tryAgain] initial,
           [window_showErrorMessage
              (js_string (js "Failed to start " ++ [QUOTE] ++ js "EmmyLua" ++ [QUOTE]
                            ++ js " language server!" ++ LF
                            ++ js "Error: no workspace"))
              None [TRY_AGAIN]])
  /\ step sample_host (ClientReady 0 (Rejected (js_string (js "closed"))))
       (set_pending [K_onReady 0] initial) =
     Some (set_pending [K_tryAgain] initial,
           [window_showErrorMessage
              (js_string (js "Failed to start " ++ [QUOTE] ++ js "EmmyLua" ++ [QUOTE]
                            ++ js " language server!" ++ LF ++ js "closed"))
              None [TRY_AGAIN]])
  /\ step sample_host (MessageClosed (Some TRY_AGAIN))
       (set_pending [K_tryAgain] initial) =
     Some (validating,
           [console_log (js "exe path : java");
            cp_exec ([QUOTE] ++ js "java" ++ [QUOTE] ++ js " -version")])
  /\ exists s',
       run (failed_rounds 3 sample_host java7) validating =
       Some (s', concat (repeat (round_effects validating
                                   (js_string (msg_unsupported (js "1.7.0_80")))) 3))
       /\ DEBUG_MODE s' = false
       /\ javaExecutablePath s' = javaExecutablePath validating
       /\ client s' = client validating
       /\ holds K_validateJava (pending s') = true.
Proof.
  destruct startup_failure_retry as (Hval & Hwatch & Hready & Hagain & Hany).
  split; [|split; [|split; [|split]]].
  - apply (Hval sample_host validating java7
             (js_string (msg_unsupported (js "1.7.0_80")))); reflexivity.
  - apply (Hwatch sample_host (set_pending [K_watch] initial)). reflexivity.
  - apply (Hready sample_host (set_pending [K_onReady 0] initial)). reflexivity.
  - apply (Hagain sample_host (set_pending [K_tryAgain] initial)). reflexivity.
  - apply (Hany 3%nat sample_host validating java7); reflexivity.
Defined.

(** C2 as stated does not hold. The message is shown without options, so it
    is not modal; and the continuation of the message is [startServer]
    whatever the message resolves to, so closing it without choosing the
    action starts the next attempt all the same. (The text of the message
    after a failed validation is [undefined]: validateJava rejects with a
    string, and the handler reads [message] off it.) *)
Lemma startup_failure_message_not_modal :
  step sample_host (ExecDone java7) validating =
  Some (set_pending [K_tryAgain] initial,
        [window_showErrorMessage js_undefined None [TRY_AGAIN]])
  /\ shown_modal None = false
  /\ step sample_host (MessageClosed None) (set_pending [K_tryAgain] initial) =
     Some (validating,
           [console_log (js "exe path : java");
            cp_exec ([QUOTE] ++ js "java" ++ [QUOTE] ++ js " -version")]).
Proof. repeat split. Qed.

(** ** The continuation of onReady always finds a client *)

Lemma holds_take p q l : holds p (take q l) = true -> holds p l = true.
Proof.
  induction l as [|r l IH]; simpl; [discriminate|].
  destruct (Pending_eqb q r); simpl.
  - intros ->. apply orb_true_r.
  - destruct (Pending_eqb p r); simpl; [reflexivity | exact IH].
Qed.

Lemma startServer_onReady s c :
  holds (K_onReady c) (pending (state_of (startServer s))) =
  holds (K_onReady c) (pending s).
Proof.
  destruct (DEBUG_MODE s) eqn:E.
  - rewrite startServer_dev by exact E. cbn [state_of fst snd pending set_pending].
    rewrite holds_app. simpl. now rewrite !orb_false_r.
  - rewrite startServer_validating by exact E.
    cbn [state_of fst snd pending set_pending].
    rewrite holds_app. simpl. now rewrite !orb_false_r.
Qed.

Lemma restartServer_onReady s c :
  holds (K_onReady c) (pending (state_of (restartServer s))) =
  holds (K_onReady c) (pending s).
Proof.
  destruct (client s) as [c0|] eqn:E.
  - rewrite (restartServer_running s c0 E).
    cbn [state_of fst snd pending set_pending].
    rewrite holds_app. simpl. now rewrite !orb_false_r.
  - rewrite restartServer_fresh by exact E. apply startServer_onReady.
Qed.

Ltac onReady_kept :=
  cbn [pending set_pending set_client set_clientsCreated set_progressBar
       set_progressHandlers set_activeEditor set_javaExecutablePath
       set_DEBUG_MODE];
  rewrite ?holds_app; simpl; rewrite ?orb_false_r; tauto.

Lemma handler_onReady h ev s c :
  holds (K_onReady c) (pending (state_of (handler h ev s))) = true ->
  holds (K_onReady c) (pending s) = true
  \/ client (state_of (handler h ev s)) <> None.
Proof.
  destruct ev; cbn [handler].
  - unfold activate. monad.
    match goal with |- context [startServer ?s0] =>
      pose proof (startServer_onReady s0 c) as Hc;
      destruct (startServer s0) as [[[] s1] e1] end.
    monad. cbn in Hc. rewrite Hc. tauto.
  - unfold deactivate, stopServer. monad. split_cases; tauto.
  - unfold onDidChangeConfiguration. monad.
    destruct (negb (path_eqb (findJava h) (javaExecutablePath s))); monad.
    + match goal with |- context [restartServer ?s0] =>
        pose proof (restartServer_onReady s0 c) as Hc;
        destruct (restartServer s0) as [[[] s1] e1] end.
      monad. cbn in Hc. rewrite Hc. tauto.
    + tauto.
  - unfold onDidChangeTextDocument. monad. split_cases; tauto.
  - unfold onDidChangeActiveTextEditor. split_cases; onReady_kept.
  - rewrite restartServer_onReady. tauto.
  - unfold insertEmmyDebugCode, insertEmmyDebugCode_insert.
    split_cases; onReady_kept.
  - unfold onConfigUpdate. monad. split_cases; tauto.
  - unfold onProgressReport, progressBar_show, progressBar_set_text. monad.
    split_cases; onReady_kept.
  - unfold startServer_validated, doStartServer. split_cases; onReady_kept.
  - unfold startServer_validated. monad. onReady_kept.
  - rewrite startServer_onReady. tauto.
  - unfold doStartServer_watched, start_failed. split_cases.
    + intros _. right. discriminate.
    + onReady_kept.
  - unfold doStartServer_ready, start_failed, onDidChangeActiveTextEditor. monad.
    split_cases; onReady_kept.
  - unfold restartServer_stopped. destruct r.
    + rewrite startServer_onReady. tauto.
    + monad. tauto.
  - unfold insertEmmyDebugCode_picked, insertEmmyDebugCode_insert.
    split_cases; onReady_kept.
  - unfold progressBar_hide. monad. onReady_kept.
Qed.

(** Whenever the code after [await client.onReady()] is pending, [client]
    is set: the branch of [doStartServer_ready] for an unset [client] is
    never taken in a run that starts with the state before [activate]. *)
Lemma onReady_has_client evs :
  forall s s' effs,
    (forall c, holds (K_onReady c) (pending s) = true -> client s <> None) ->
    run evs s = Some (s', effs) ->
    forall c, holds (K_onReady c) (pending s') = true -> client s' <> None.
Proof.
  induction evs as [|[h ev] evs IH]; intros s s' effs Hs H; simpl in H.
  - inversion H; subst. exact Hs.
  - destruct (step h ev s) as [[s1 e1]|] eqn:E1; [|discriminate].
    destruct (run evs s1) as [[s2 e2]|] eqn:E2; [|discriminate].
    inversion H; subst. eapply IH; [|exact E2].
    intros c Hc. unfold step in E1.
    destruct (enabled h ev s); [|discriminate].
    inversion E1; subst; clear E1.
    apply handler_onReady in Hc as [Hc | Hc]; [|exact Hc].
    apply handler_client.
    assert (Hp : holds (K_onReady c) (pending s) = true).
    { unfold resume in Hc. destruct (resumes ev); [|exact Hc].
      cbn [pending set_pending] in Hc. now apply holds_take in Hc. }
    apply Hs in Hp. unfold resume. now destruct (resumes ev).
Qed.


(** ** A whole session *)

Example session_run :
  option_map snd (run session initial) =
  Some [console_log (js "emmy lua actived!");
        call_findJava;
        console_log (js "exe path : /usr/bin/java");
        cp_exec ([QUOTE] ++ js "/usr/bin/java" ++ [QUOTE] ++ js " -version");
        configWatcher_watch;
        new_LanguageClient session_client;
        client_start session_client;
        client_onReady session_client;
        console_log (js "client ready");
        client_onNotification session_client (js "emmy/progressReport");
        Annotator_requestAnnotators lua_editor (Some session_client);
        Annotator_requestAnnotators lua_editor (Some session_client);
        client_sendRequest session_client (js "emmy/updateConfig") sample_update]
  /\ serverOptions session_client =
     Executable (js "/usr/bin/java")
       [js "-cp"; js "/ext/server/*"; js "com.tang.vscode.MainKt";
        js "-XX:+UseConcMarkSweepGC"]
  /\ option_map (fun r => pending (fst r)) (run session initial) = Some [].
Proof. repeat split. Qed.

(** * Further properties of the code *)

(** ** What validateJava accepts, and what its rejections carry *)

Lemma plus_greedy_inv {R} c s (k : jsstring -> option R) x :
  plus_greedy c s k = Some x ->
  exists ds t, s = ds ++ t /\ ds <> [] /\ forallb c ds = true /\ k t = Some x.
Proof.
  induction s as [|a s IH]; simpl; [discriminate|].
  destruct (c a) eqn:Ca; [|discriminate].
  destruct (plus_greedy c s k) as [y|] eqn:E; simpl.
  - intros H. inversion H; subst.
    destruct (IH eq_refl) as (ds & t & -> & _ & Hd & Hk).
    exists (a :: ds), t. repeat split; [discriminate | | exact Hk].
    simpl. now rewrite Ca, Hd.
  - intros H. exists [a], s. repeat split; [discriminate | | exact H].
    simpl. now rewrite Ca.
Qed.

Lemma plus_lazy_inv {R} c s (k : jsstring -> option R) x :
  plus_lazy c s k = Some x ->
  exists us t, s = us ++ t /\ us <> [] /\ forallb c us = true /\ k t = Some x.
Proof.
  induction s as [|a s IH]; simpl; [discriminate|].
  destruct (c a) eqn:Ca; [|discriminate].
  destruct (k s) as [y|] eqn:E; simpl.
  - intros H. inversion H; subst.
    exists [a], s. repeat split; [discriminate | | exact E].
    simpl. now rewrite Ca.
  - intros H. destruct (IH H) as (us & t & -> & _ & Hd & Hk).
    exists (a :: us), t. repeat split; [discriminate | | exact Hk].
    simpl. now rewrite Ca, Hd.
Qed.

(** What a match of the part behind the opening quote has read. *)
Lemma match_version_inv {R} s (k : jsstring -> captures -> option R) x :
  rmatch re_version s [] k = Some x ->
  exists maj t s_end caps,
    s = maj ++ t /\ numeral maj /\ k s_end caps = Some x
    /\ capture 2 caps = Some maj
    /\ ((capture 4 caps = None /\ exists t', t = QUOTE :: t')
        \/ exists min t',
            numeral min /\ t = js "." ++ min ++ t' /\ capture 4 caps = Some min).
Proof.
  unfold re_version. cbn [rmatch]. intros H.
  apply plus_greedy_inv in H as (maj & t & -> & Hne & Hd & H).
  exists maj, t.
  destruct (strip_prefix (js ".") t) as [s1|] eqn:E1.
  - (* the minor group is tried first *)
    match type of H with orelse ?a _ = _ => destruct a as [y|] eqn:Ea end.
    + cbn [orelse] in H. inversion H; subst y.
      apply plus_greedy_inv in Ea as (min & t2 & -> & Hne2 & Hd2 & Ea).
      apply plus_lazy_inv in Ea as (us & t3 & -> & Hne3 & Hd3 & Ea).
      destruct (strip_prefix [QUOTE] t3) as [s4|] eqn:E4; [|discriminate].
      eexists s4, _. split; [reflexivity|]. split; [now split|].
      split; [exact Ea|]. split.
      * cbn [capture Nat.eqb]. now rewrite consumed_app.
      * right. exists min, (us ++ t3). split; [now split|]. split.
        -- now apply strip_prefix_inv in E1.
        -- cbn [capture Nat.eqb]. now rewrite consumed_app.
    + cbn [orelse] in H.
      destruct (strip_prefix [QUOTE] t) as [s4|] eqn:E4; [|discriminate].
      eexists s4, _. split; [reflexivity|]. split; [now split|].
      split; [exact H|]. split.
      * cbn [capture Nat.eqb]. now rewrite consumed_app.
      * left. split; [reflexivity|]. exists s4.
        now apply strip_prefix_inv in E4.
  - cbn [orelse] in H.
    destruct (strip_prefix [QUOTE] t) as [s4|] eqn:E4; [|discriminate].
    eexists s4, _. split; [reflexivity|]. split; [now split|].
    split; [exact H|]. split.
    + cbn [capture Nat.eqb]. now rewrite consumed_app.
    + left. split; [reflexivity|]. exists s4.
      now apply strip_prefix_inv in E4.
Qed.

Lemma exec_found r s m :
  exec r s = Some m ->
  exists pre s', s = pre ++ s' /\ match_here r s' = Some m.
Proof.
  induction s as [|c s IH]; simpl.
  - destruct (match_here r []) eqn:E; [|discriminate].
    intros H. inversion H; subst. now exists [], [].
  - destruct (match_here r (c :: s)) eqn:E.
    + intros H. inversion H; subst. now exists [], (c :: s).
    + intros H. destruct (IH H) as (pre & s' & -> & Hm).
      now exists (c :: pre), s'.
Qed.

(** What a match of the whole pattern has read. *)
Lemma match_here_version s m :
  match_here regexp s = Some m ->
  exists kw maj t,
    keyword kw /\ numeral maj /\ s = kw ++ OPENING ++ maj ++ t
    /\ capture 2 m = Some maj
    /\ ((capture 4 m = None /\ exists t', t = QUOTE :: t')
        \/ exists min t',
            numeral min /\ t = js "." ++ min ++ t' /\ capture 4 m = Some min).
Proof.
  intros H.
  destruct (match_here_inv s m H) as (kw & s1 & Hkw & ->).
  unfold match_here in H. rewrite match_keyword in H by exact Hkw.
  apply match_version_inv in H
    as (maj & t & s_end & caps & -> & Hmaj & Hk & H2 & H4).
  inversion Hk; subst m.
  exists kw, maj, t. repeat split; try assumption; try apply Hmaj.
Qed.

(** X1. validateJava never accepts an output without a version line:
    when it resolves, the standard error output holds a keyword, [ version ],
    a quote and a run of digits, and either that run reads as more than 1
    and is followed by a dot and a digit or by the closing quote, or it
    reads as 1 and is followed by a dot and digits that read as 8 or
    more. *)
Theorem validateJava_accepts_version_lines_only :
  forall stderr,
    validateJava_callback stderr = Resolved tt ->
    exists pre kw maj t,
      keyword kw /\ numeral maj
      /\ stderr = pre ++ kw ++ OPENING ++ maj ++ t
      /\ ((1 < parse_digits maj
           /\ ((exists t', t = QUOTE :: t')
               \/ exists min t', numeral min /\ t = js "." ++ min ++ t'))
          \/ (parse_digits maj = 1
              /\ exists min t',
                  numeral min /\ t = js "." ++ min ++ t'
                  /\ 8 <= parse_digits min)).
Proof.
  intros stderr. unfold validateJava_callback.
  destruct (truthy stderr); [|discriminate].
  destruct (exec regexp stderr) as [m|] eqn:E; [|discriminate].
  destruct (exec_found _ _ _ E) as (pre & s' & -> & Hm).
  destruct (match_here_version s' m Hm)
    as (kw & maj & t & Hkw & Hmaj & -> & H2 & H4).
  rewrite H2. cbn [parseInt_or_0].
  destruct (1 <? parse_digits maj) eqn:L1.
  - intros _. exists pre, kw, maj, t. repeat split; try assumption; try apply Hmaj.
    left. split; [now apply N.ltb_lt|].
    destruct H4 as [[_ Hq] | (min & t' & Hmin & Ht & _)];
      [now left | right; now exists min, t'].
  - cbn [orb].
    destruct (N.eqb_spec (parse_digits maj) 1) as [E1|]; [|discriminate].
    cbn [andb].
    destruct H4 as [[H4 _] | (min & t' & Hmin & Ht & H4)]; rewrite H4;
      cbn [parseInt_or_0]; [discriminate|].
    destruct (8 <=? parse_digits min) eqn:L8; [|discriminate].
    intros _. exists pre, kw, maj, t. repeat split; try assumption; try apply Hmaj.
    right. split; [exact E1|]. exists min, t'.
    repeat split; try assumption; try apply Hmin. now apply N.leb_le.
Qed.

Lemma validateJava_accepts_version_lines_only_witness :
  exists pre kw maj t,
    keyword kw /\ numeral maj
    /\ java11 = pre ++ kw ++ OPENING ++ maj ++ t
    /\ ((1 < parse_digits maj
         /\ ((exists t', t = QUOTE :: t')
             \/ exists min t', numeral min /\ t = js "." ++ min ++ t'))
        \/ (parse_digits maj = 1
            /\ exists min t',
                numeral min /\ t = js "." ++ min ++ t'
                /\ 8 <= parse_digits min)).
Proof.
  apply (validateJava_accepts_version_lines_only java11). reflexivity.
Defined.

Lemma validateJava_rejects_with_string stderr e :
  validateJava_callback stderr = Rejected e -> exists msg, e = js_string msg.
Proof.
  unfold validateJava_callback.
  destruct (truthy stderr); [|intros H; inversion H; now eexists].
  destruct (exec regexp stderr) as [m|]; [|intros H; inversion H; now eexists].
  match goal with |- context [if ?b then _ else _] => destruct b end;
    [discriminate | intros H; inversion H; now eexists].
Qed.

(** X2. When [cp.exec] calls back, the callback does one of two things:
    it goes on to the configuration watcher, or it shows an error message
    whose text is [undefined]. Every rejection the callback makes is a
    string, and the [catch] block of startServer shows the [message]
    property of what it caught, which a string does not have: the texts
    "Can't find Java! ..." and "Unsupported Java version ..." never reach
    the user. The one failure shown with a text is an Error thrown by
    [cp.exec] itself, which rejects the promise of validateJava before any
    callback: the message then has the text of that Error. *)
Theorem validation_failure_shows_undefined :
  (forall h s stderr s' effs,
      step h (ExecDone stderr) s = Some (s', effs) ->
      (validateJava_callback stderr = Resolved tt
       /\ effs = [configWatcher_watch])
      \/ ((exists msg, validateJava_callback stderr = Rejected (js_string msg))
          /\ effs = [window_showErrorMessage js_undefined None [TRY_AGAIN]]))
  /\ (forall h s name msg,
      holds K_validateJava (pending s) = true ->
      step h (ExecThrew (js_Error name msg)) s =
      Some (set_pending (take K_validateJava (pending s) ++ [K_tryAgain]) s,
            [window_showErrorMessage (js_string msg) None [TRY_AGAIN]])).
Proof.
  split.
  - intros h s stderr s' effs. step_event.
    destruct (holds K_validateJava (pending s)); [|discriminate].
    destruct (validateJava_callback stderr) as [[]|e] eqn:V.
    + intros H. inversion H. now left.
    + destruct (validateJava_rejects_with_string _ _ V) as [msg ->].
      intros H. inversion H. right. split; [now exists msg | reflexivity].
  - intros h s name msg H. step_event. now rewrite H.
Qed.

Lemma validation_failure_shows_undefined_witness :
  (exists msg, validateJava_callback java7 = Rejected (js_string msg))
  /\ step sample_host
       (ExecThrew (js_Error (js "TypeError")
                     (js "The argument 'args[0]' must be a string without null bytes.")))
       validating =
     Some (set_pending [K_tryAgain] initial,
           [window_showErrorMessage
              (js_string (js "The argument 'args[0]' must be a string without null bytes."))
              None [TRY_AGAIN]]).
Proof.
  destruct validation_failure_shows_undefined as [Hback Hthrew].
  split.
  - destruct (Hback sample_host validating java7
                (set_pending [K_tryAgain] initial)
                [window_showErrorMessage js_undefined None [TRY_AGAIN]] eq_refl)
      as [[_ H] | [H _]]; [discriminate H | exact H].
  - apply (Hthrew sample_host validating). reflexivity.
Defined.

(** ** Version lines the pattern does not read *)

Lemma plus_greedy_digits_fail {R} (k : jsstring -> option R) maj c t :
  forallb digit maj = true -> digit c = false ->
  (forall y u, ends_major y = false -> k (y :: u) = None) ->
  ends_major c = false ->
  plus_greedy digit (maj ++ c :: t) k = None.
Proof.
  intros Hd Hc Hk Hend.
  induction maj as [|d maj IH]; simpl.
  - now rewrite Hc.
  - simpl in Hd. apply andb_prop in Hd as [Hd1 Hd2].
    rewrite Hd1, (IH Hd2). cbn [orelse].
    destruct maj as [|d' maj']; simpl.
    + now apply Hk.
    + apply Hk. simpl in Hd2. apply andb_prop in Hd2 as [Hd' _].
      unfold digit in Hd'. unfold ends_major, QUOTE.
      apply andb_prop in Hd' as [L1 L2].
      apply N.leb_le in L1, L2.
      apply orb_false_intro; apply N.eqb_neq; lia.
Qed.

Lemma match_here_major_suffix kw maj c t :
  keyword kw -> forallb digit maj = true ->
  digit c = false -> ends_major c = false ->
  match_here regexp (kw ++ OPENING ++ maj ++ c :: t) = None.
Proof.
  intros Hkw Hd Hc Hend. unfold match_here.
  rewrite match_keyword by exact Hkw.
  unfold re_version. cbn [rmatch].
  apply plus_greedy_digits_fail; [exact Hd | exact Hc | | exact Hend].
  intros y u Hy. unfold ends_major in Hy.
  apply orb_false_elim in Hy as [Hdot Hq].
  cbn [strip_prefix]. change (js ".") with [46]. cbn [strip_prefix].
  rewrite N.eqb_sym in Hdot. rewrite N.eqb_sym in Hq.
  now rewrite Hdot, Hq.
Qed.

Lemma exec_unmatched_here r s :
  match_here r s = None -> exec r (List.tl s) = None -> exec r s = None.
Proof.
  destruct s as [|c s]; simpl; intros H1 H2; rewrite H1; [reflexivity | exact H2].
Qed.

(** X3. A version whose major number is followed by anything but a dot or
    the closing quote, as in the early-access version "9-ea", is not read as
    a version: the pattern has no match at that line, and when the output
    has no other version line validateJava rejects with the runtime-missing
    message, though a Java runtime answered. *)
Theorem suffixed_major_is_runtime_missing :
  forall pre kw maj c t,
    keyword kw -> numeral maj ->
    digit c = false -> ends_major c = false ->
    unmatched_before regexp (List.length pre)
      (pre ++ kw ++ OPENING ++ maj ++ c :: t) = true ->
    exec regexp (List.tl (kw ++ OPENING ++ maj ++ c :: t)) = None ->
    match_here regexp (kw ++ OPENING ++ maj ++ c :: t) = None
    /\ validateJava_callback (pre ++ kw ++ OPENING ++ maj ++ c :: t) =
       Rejected (js_string msg_cant_find).
Proof.
  intros pre kw maj c t Hkw [_ Hd] Hc Hend Hpre Hlater.
  pose proof (match_here_major_suffix kw maj c t Hkw Hd Hc Hend) as Hhere.
  split; [exact Hhere|].
  apply validateJava_unmatched. rewrite exec_skip by exact Hpre.
  now apply exec_unmatched_here.
Qed.

Lemma suffixed_major_is_runtime_missing_witness :
  match_here regexp java9ea = None
  /\ validateJava_callback java9ea = Rejected (js_string msg_cant_find).
Proof.
  apply (suffixed_major_is_runtime_missing [] (js "openjdk") (js "9") 45
           (js "ea" ++ [QUOTE] ++ LF
              ++ js "OpenJDK Runtime Environment (build 9-ea+181)"));
    [now right | now apply numeral_intro | reflexivity | reflexivity
     | reflexivity | reflexivity].
Defined.

(** ** Which callback writes which module variable *)

Lemma startServer_shape s :
  exists k e,
    startServer s = (tt, set_pending (pending s ++ [k]) s, e)
    /\ (k = K_watch \/ k = K_validateJava).
Proof.
  destruct (DEBUG_MODE s) eqn:E.
  - rewrite startServer_dev by exact E. eexists _, _. split; [reflexivity|now left].
  - rewrite startServer_validating by exact E.
    eexists _, _. split; [reflexivity|now right].
Qed.

Lemma restartServer_shape s :
  exists k e,
    restartServer s = (tt, set_pending (pending s ++ [k]) s, e)
    /\ (k = K_watch \/ k = K_validateJava \/ k = K_stopped).
Proof.
  destruct (client s) as [c|] eqn:E.
  - rewrite (restartServer_running s c E).
    eexists _, _. split; [reflexivity|now right; right].
  - rewrite restartServer_fresh by exact E.
    destruct (startServer_shape s) as (k & e & -> & [-> | ->]);
      eexists _, _; (split; [reflexivity|]); [now left | now right; left].
Qed.

Ltac vars :=
  cbn [DEBUG_MODE client activeEditor progressBar javaExecutablePath pending
       progressHandlers clientsCreated
       set_DEBUG_MODE set_client set_activeEditor set_progressBar
       set_javaExecutablePath set_pending set_progressHandlers
       set_clientsCreated visible bar_text].

Ltac use_shape :=
  match goal with
  | |- context [startServer ?s0] =>
      let k := fresh "k" in let e := fresh "e" in
      let E := fresh "E" in let K := fresh "K" in
      destruct (startServer_shape s0) as (k & e & E & K); rewrite E; monad
  | |- context [restartServer ?s0] =>
      let k := fresh "k" in let e := fresh "e" in
      let E := fresh "E" in let K := fresh "K" in
      destruct (restartServer_shape s0) as (k & e & E & K); rewrite E; monad
  end.

Ltac frame_done :=
  vars; repeat split; intros;
  try congruence;
  try (left; congruence);
  try (right; eexists; split; [reflexivity | now apply str_eqb_eq]).

Lemma handler_writes h ev s :
  let s' := state_of (handler h ev s) in
  (ev <> Activate -> DEBUG_MODE s' = DEBUG_MODE s)
  /\ (ev <> Activate -> ev <> DidChangeConfiguration ->
      javaExecutablePath s' = javaExecutablePath s)
  /\ ((forall files, ev <> WatchDone (Resolved files)) -> client s' = client s)
  /\ (activeEditor s' = activeEditor s
      \/ exists ed,
          activeEditor s' = Some ed
          /\ languageId h (document ed) = LANGUAGE_ID).
Proof.
  destruct ev; cbn [handler]; cbv zeta.
  - unfold activate. monad. use_shape. frame_done.
  - unfold deactivate, stopServer. monad. split_cases; frame_done.
  - unfold onDidChangeConfiguration. monad.
    destruct (negb (path_eqb (findJava h) (javaExecutablePath s))); monad.
    + use_shape. frame_done.
    + frame_done.
  - unfold onDidChangeTextDocument. monad. split_cases; frame_done.
  - unfold onDidChangeActiveTextEditor. split_cases; frame_done.
  - use_shape. frame_done.
  - unfold insertEmmyDebugCode, insertEmmyDebugCode_insert.
    split_cases; frame_done.
  - unfold onConfigUpdate. monad. split_cases; frame_done.
  - unfold onProgressReport, progressBar_show, progressBar_set_text. monad.
    split_cases; frame_done.
  - unfold startServer_validated, doStartServer. split_cases; frame_done.
  - unfold startServer_validated. monad. frame_done.
  - use_shape. frame_done.
  - unfold doStartServer_watched, start_failed. split_cases; frame_done.
    exfalso. match goal with H : forall files, _ <> _ |- _ => now apply (H a) end.
  - unfold doStartServer_ready, start_failed, onDidChangeActiveTextEditor. monad.
    split_cases; frame_done.
  - unfold restartServer_stopped. destruct r.
    + use_shape. frame_done.
    + monad. frame_done.
  - unfold insertEmmyDebugCode_picked, insertEmmyDebugCode_insert.
    split_cases; frame_done.
  - unfold progressBar_hide. monad. frame_done.
Qed.

Lemma resume_vars ev s :
  DEBUG_MODE (resume ev s) = DEBUG_MODE s
  /\ javaExecutablePath (resume ev s) = javaExecutablePath s
  /\ client (resume ev s) = client s
  /\ activeEditor (resume ev s) = activeEditor s
  /\ progressBar (resume ev s) = progressBar s.
Proof. unfold resume. destruct (resumes ev); now repeat split. Qed.

(** X4. The module variables have few writers. [DEBUG_MODE] is written by
    [activate] alone, so the development flag is read once;
    [javaExecutablePath] by [activate] and by the configuration-change
    handler alone; [client] only where [doStartServer] constructs a client,
    so it is never cleared and a stopped client stays in it; and
    [activeEditor] is only ever replaced by an editor that shows a [lua]
    document at that moment, so it is never cleared either. *)
Theorem module_variable_writers :
  forall h ev s s' effs,
    step h ev s = Some (s', effs) ->
    (ev <> Activate -> DEBUG_MODE s' = DEBUG_MODE s)
    /\ (ev <> Activate -> ev <> DidChangeConfiguration ->
        javaExecutablePath s' = javaExecutablePath s)
    /\ ((forall files, ev <> WatchDone (Resolved files)) -> client s' = client s)
    /\ (activeEditor s' = activeEditor s
        \/ exists ed,
            activeEditor s' = Some ed
            /\ languageId h (document ed) = LANGUAGE_ID).
Proof.
  intros h ev s s' effs H. unfold step in H.
  destruct (enabled h ev s); [|discriminate].
  inversion H; subst; clear H.
  destruct (resume_vars ev s) as (RD & RJ & RC & RA & _).
  destruct (handler_writes h ev (resume ev s)) as (HD & HJ & HC & HA).
  cbv zeta in *. rewrite RD in HD. rewrite RJ in HJ. rewrite RC in HC.
  rewrite RA in HA. now repeat split.
Qed.

Lemma module_variable_writers_witness :
  DEBUG_MODE (set_pending [K_watch] dev_state) =
  DEBUG_MODE (set_pending [K_tryAgain] dev_state)
  /\ javaExecutablePath (set_pending [K_watch] dev_state) =
     javaExecutablePath (set_pending [K_tryAgain] dev_state)
  /\ client (set_pending [K_watch] dev_state) =
     client (set_pending [K_tryAgain] dev_state).
Proof.
  destruct (module_variable_writers sample_host (MessageClosed None)
              (set_pending [K_tryAgain] dev_state)
              (set_pending [K_watch] dev_state) [configWatcher_watch] eq_refl)
    as (HD & HJ & HC & _).
  split; [apply HD; discriminate|].
  split; [apply HJ; discriminate | apply HC; discriminate].
Defined.

(** ** Restart commands are not merged *)

Lemma times_take_same p l :
  holds p l = true -> S (times p (take p l)) = times p l.
Proof.
  unfold times. induction l as [|q l IH]; simpl; [discriminate|].
  destruct (Pending_eqb p q) eqn:E; simpl.
  - reflexivity.
  - rewrite E. exact IH.
Qed.

Lemma times_repeat p n : times p (repeat p n) = n.
Proof.
  unfold times. induction n as [|n IH]; simpl; [reflexivity|].
  rewrite Pending_eqb_refl. simpl. now rewrite IH.
Qed.

Lemma times_repeat_other p q n : p <> q -> times p (repeat q n) = 0%nat.
Proof.
  intros H. unfold times. induction n as [|n IH]; simpl; [reflexivity|].
  now rewrite (Pending_eqb_neq p q H).
Qed.

Lemma restarts_run n h c :
  forall s,
    client s = Some c ->
    run (again n h Command_restartServer) s =
    Some (set_pending (pending s ++ repeat K_stopped n) s,
          repeat (client_stop c) n).
Proof.
  induction n as [|n IH]; intros s Hc; unfold again in *; cbn [repeat run].
  - rewrite app_nil_r. now destruct s.
  - unfold step at 1. cbn [enabled resumes andb resume handler].
    rewrite (restartServer_running s c Hc). cbn [state_of effects_of fst snd].
    rewrite IH by exact Hc. cbn [pending set_pending].
    rewrite <- app_assoc. reflexivity.
Qed.

Lemma stops_run n h :
  forall s,
    DEBUG_MODE s = false ->
    (n <= times K_stopped (pending s))%nat ->
    exists s',
      run (again n h (ClientStopped (Resolved tt))) s =
      Some (s', concat (repeat (query_effects s) n))
      /\ times K_validateJava (pending s') =
         (times K_validateJava (pending s) + n)%nat
      /\ client s' = client s.
Proof.
  induction n as [|n IH]; intros s D Hn; unfold again in *; cbn [repeat run].
  - exists s. repeat split. lia.
  - assert (Hh : holds K_stopped (pending s) = true)
      by (apply holds_times; lia).
    unfold step at 1. unfold enabled, resume. cbn [resumes handler].
    rewrite Hh. cbn [andb restartServer_stopped].
    rewrite startServer_validating by exact D.
    cbn [state_of effects_of fst snd pending set_pending DEBUG_MODE].
    match goal with |- context [run _ ?s1] =>
      destruct (IH s1) as (s' & R & T & C) end.
    + exact D.
    + cbn [pending set_pending]. rewrite times_app.
      pose proof (times_take_same K_stopped (pending s) Hh). simpl. lia.
    + rewrite R. exists s'. split; [|split].
      * cbn [repeat concat]. reflexivity.
      * rewrite T. cbn [pending set_pending]. rewrite times_app.
        rewrite times_take_other by discriminate.
        change (times K_validateJava [K_validateJava]) with 1%nat. lia.
      * rewrite C. reflexivity.
Qed.

(** X5. Restart commands are not merged. With a client in place, [n]
    restart commands in a row call [stop] on that same client [n] times, and
    when the host then resolves the [n] stops, [startServer] runs [n] times:
    [n] version queries are under way at once, each of which goes on to
    construct a client of its own. *)
Theorem restart_commands_not_merged :
  forall n h s c,
    client s = Some c -> DEBUG_MODE s = false ->
    exists s',
      run (again n h Command_restartServer
             ++ again n h (ClientStopped (Resolved tt))) s =
      Some (s', repeat (client_stop c) n ++ concat (repeat (query_effects s) n))
      /\ times K_validateJava (pending s') =
         (times K_validateJava (pending s) + n)%nat
      /\ client s' = Some c.
Proof.
  intros n h s c Hc D. rewrite run_app, (restarts_run n h c s Hc).
  destruct (stops_run n h (set_pending (pending s ++ repeat K_stopped n) s))
    as (s' & R & T & C).
  - exact D.
  - cbn [pending set_pending]. rewrite times_app, times_repeat. lia.
  - rewrite R. exists s'. split; [reflexivity|]. split.
    + rewrite T. cbn [pending set_pending].
      rewrite times_app, times_repeat_other by discriminate. lia.
    + rewrite C. exact Hc.
Qed.

Lemma restart_commands_not_merged_witness :
  exists s',
    run (again 2 sample_host Command_restartServer
           ++ again 2 sample_host (ClientStopped (Resolved tt)))
      (set_client (Some sample_client) initial) =
    Some (s',
          repeat (client_stop sample_client) 2
            ++ concat (repeat (query_effects
                                 (set_client (Some sample_client) initial)) 2))
    /\ times K_validateJava (pending s') =
       (times K_validateJava
          (pending (set_client (Some sample_client) initial)) + 2)%nat
    /\ client s' = Some sample_client.
Proof.
  apply (restart_commands_not_merged 2 sample_host
           (set_client (Some sample_client) initial) sample_client);
    reflexivity.
Defined.

(** ** Requests after a stop *)

Lemma run_keeps_same_client evs :
  forall s s' effs,
    constructs_no_client evs ->
    run evs s = Some (s', effs) -> client s' = client s.
Proof.
  induction evs as [|[h ev] evs IH]; intros s s' effs Hall H; simpl in H.
  - now inversion H; subst.
  - destruct (step h ev s) as [[s1 e1]|] eqn:E1; [|discriminate].
    destruct (run evs s1) as [[s2 e2]|] eqn:E2; [|discriminate].
    inversion H; subst. inversion Hall; subst.
    rewrite (IH s1 s' e2 H3 E2).
    unfold step in E1. destruct (enabled h ev s); [|discriminate].
    inversion E1; subst.
    destruct (handler_writes h ev (resume ev s)) as (_ & _ & HC & _).
    cbv zeta in HC. rewrite (HC H2).
    apply resume_vars.
Qed.

(** X6. Requests follow the variable [client], not the state of the
    connection. Nothing but [doStartServer] writes [client], so after a
    restart command or after [deactivate] has stopped the client, and until
    the next client is constructed, a configuration update is still sent to
    the stopped client, and annotator requests are still made with it. *)
Theorem requests_go_to_stopped_client :
  forall evs h s s' effs c e,
    client s = Some c ->
    constructs_no_client evs ->
    run evs s = Some (s', effs) ->
    step h (ConfigUpdate e) s' =
    Some (s', [client_sendRequest c (js "emmy/updateConfig") e])
    /\ (forall ed,
        languageId h (document ed) = LANGUAGE_ID ->
        step h (DidChangeActiveTextEditor (Some ed)) s' =
        Some (set_activeEditor (Some ed) s',
              [Annotator_requestAnnotators ed (Some c)])).
Proof.
  intros evs h s s' effs c e Hc Hall Hrun.
  pose proof (run_keeps_same_client evs s s' effs Hall Hrun) as Hsame.
  rewrite Hc in Hsame. split.
  - step_event. unfold onConfigUpdate. monad. now rewrite Hsame.
  - intros ed Hl. step_event. unfold onDidChangeActiveTextEditor.
    rewrite Hl, (proj2 (str_eqb_eq _ _) eq_refl). monad.
    cbn [client set_activeEditor]. now rewrite Hsame.
Qed.

Lemma requests_go_to_stopped_client_witness :
  step sample_host (ConfigUpdate sample_update)
    (set_client (Some sample_client) initial) =
  Some (set_client (Some sample_client) initial,
        [client_sendRequest sample_client (js "emmy/updateConfig") sample_update])
  /\ step sample_host (DidChangeActiveTextEditor (Some lua_editor))
       (set_client (Some sample_client) initial) =
     Some (set_activeEditor (Some lua_editor)
             (set_client (Some sample_client) initial),
           [Annotator_requestAnnotators lua_editor (Some sample_client)]).
Proof.
  destruct (requests_go_to_stopped_client [(sample_host, Deactivate)]
              sample_host
              (set_client (Some sample_client) initial)
              (set_client (Some sample_client) initial)
              [client_stop sample_client] sample_client sample_update)
    as [Hsend Hannot].
  - reflexivity.
  - repeat constructor. discriminate.
  - reflexivity.
  - split; [exact Hsend | apply Hannot; reflexivity].
Defined.

(** ** The editor the annotator follows *)

(** X7. [activeEditor] is the last editor on a [lua] document that became
    active, not the editor that is active: when another kind of editor, or
    none, becomes active, the handler leaves the variable as it is and
    requests nothing, and a later change of the document of the remembered
    editor still requests annotators for that editor. *)
Theorem annotator_follows_last_lua_editor :
  forall h h' s ed other,
    activeEditor s = Some ed ->
    (forall o, other = Some o -> languageId h (document o) <> LANGUAGE_ID) ->
    languageId h' (document ed) = LANGUAGE_ID ->
    run [(h, DidChangeActiveTextEditor other);
         (h', DidChangeTextDocument (document ed))] s =
    Some (s, [Annotator_requestAnnotators ed (client s)]).
Proof.
  intros h h' s ed other Ha Ho Hl. cbn [run].
  assert (E1 : step h (DidChangeActiveTextEditor other) s = Some (s, [])).
  { step_event. unfold onDidChangeActiveTextEditor.
    destruct other as [o|]; [|reflexivity].
    now rewrite (str_eqb_neq _ _ (Ho o eq_refl)). }
  rewrite E1.
  assert (E2 : step h' (DidChangeTextDocument (document ed)) s =
               Some (s, [Annotator_requestAnnotators ed (client s)])).
  { step_event. unfold onDidChangeTextDocument. monad.
    rewrite Ha, Nat.eqb_refl, Hl.
    now rewrite (proj2 (str_eqb_eq _ _) eq_refl). }
  now rewrite E2.
Qed.

Lemma annotator_follows_last_lua_editor_witness :
  run [(with_editor (Some json_editor) sample_host,
        DidChangeActiveTextEditor (Some json_editor));
       (with_editor (Some json_editor) sample_host,
        DidChangeTextDocument (document lua_editor))]
    (set_activeEditor (Some lua_editor) initial) =
  Some (set_activeEditor (Some lua_editor) initial,
        [Annotator_requestAnnotators lua_editor None]).
Proof.
  apply (annotator_follows_last_lua_editor
           (with_editor (Some json_editor) sample_host)
           (with_editor (Some json_editor) sample_host)
           (set_activeEditor (Some lua_editor) initial)
           lua_editor (Some json_editor)).
  - reflexivity.
  - intros o H. inversion H; subst. discriminate.
  - reflexivity.
Defined.

(** ** The debug snippet *)

(** X8. On Windows the snippet goes to the editor that was active when the
    command was called. The code after the architecture prompt looks at
    neither the window nor the document again: whichever editor is active
    by then, whatever the language of the document has become, the template
    is inserted into the editor of the call. *)
Theorem snippet_goes_to_editor_of_the_call :
  forall h h' s ed arch,
    window_activeTextEditor h = Some ed ->
    languageId h (document ed) = js "lua" ->
    process_platform h = js "win32" ->
    arch <> [] ->
    exists s',
      run [(h, Command_insertEmmyDebugCode);
           (h', QuickPickDone ed (Some arch))] s =
      Some (s',
            [window_showQuickPick [js "x64"; js "x86"];
             insertSnippet ed
               (debug_snippet
                  (path_join h' [extensionPath h';
                                 js "debugger/emmy/windows/" ++ arch
                                   ++ js "/?.dll"]))])
      /\ forall p, times p (pending s') = times p (pending s).
Proof.
  intros h h' s ed arch He Hl Hp Ha. cbn [run].
  assert (E1 : step h Command_insertEmmyDebugCode s =
               Some (set_pending (pending s ++ [K_quickPick ed]) s,
                     [window_showQuickPick [js "x64"; js "x86"]])).
  { step_event. rewrite (insert_on_lua h s ed He Hl), Hp. reflexivity. }
  rewrite E1.
  unfold step. unfold enabled, resume. cbn [resumes handler pending set_pending].
  rewrite holds_last. cbn [andb].
  unfold insertEmmyDebugCode_picked, insertEmmyDebugCode_insert.
  destruct arch as [|a arch]; [congruence|]. cbn [truthy]. monad.
  eexists. split; [reflexivity|].
  intros p. cbn [pending set_pending].
  destruct (Pending_eqb p (K_quickPick ed)) eqn:E.
  - apply Pending_eqb_eq in E. subst p.
    pose proof (times_take_same (K_quickPick ed)
                  (pending s ++ [K_quickPick ed]) (holds_last _ _)) as H.
    rewrite times_app in H.
    change (times (K_quickPick ed) [K_quickPick ed])
      with (List.length (if Pending_eqb (K_quickPick ed) (K_quickPick ed)
                         then [K_quickPick ed] else [])) in H.
    rewrite Pending_eqb_refl in H. simpl in H. lia.
  - assert (Hne : p <> K_quickPick ed).
    { intros ->. now rewrite Pending_eqb_refl in E. }
    rewrite times_take_other by exact Hne.
    rewrite times_app. unfold times at 2. simpl. rewrite E. simpl. lia.
Qed.

Lemma snippet_goes_to_editor_of_the_call_witness :
  exists s',
    run [(windows_host, Command_insertEmmyDebugCode);
         (with_editor (Some json_editor) windows_host,
          QuickPickDone lua_editor (Some (js "x86")))] initial =
    Some (s',
          [window_showQuickPick [js "x64"; js "x86"];
           insertSnippet lua_editor
             (debug_snippet
                (path_join windows_host
                   [extensionPath windows_host;
                    js "debugger/emmy/windows/" ++ js "x86" ++ js "/?.dll"]))])
    /\ forall p, times p (pending s') = times p (pending initial).
Proof.
  apply (snippet_goes_to_editor_of_the_call windows_host
           (with_editor (Some json_editor) windows_host) initial lua_editor
           (js "x86")); first [reflexivity | discriminate].
Defined.





(** ** The progress indicator without a final report *)

Ltac quiet_done :=
  split;
  [ first
      [ exists []; split; [vars; symmetry; apply app_nil_r | reflexivity]
      | eexists; split;
        [ vars; reflexivity
        | intros;
          repeat match goal with H : _ \/ _ |- _ => destruct H end;
          subst; reflexivity ] ]
  | vars; intros; try assumption; try reflexivity ].

Lemma handler_sets_no_timer h ev s :
  sets_no_timer ev -> (forall due, ev <> TimerFired due) ->
  (exists l,
      pending (state_of (handler h ev s)) = pending s ++ l
      /\ forall due, holds (K_hide due) l = false)
  /\ (visible (progressBar s) = true ->
      visible (progressBar (state_of (handler h ev s))) = true).
Proof.
  intros [Hact Hrep] Hfire. destruct ev; cbn [handler].
  - congruence.
  - unfold deactivate, stopServer. monad. split_cases; quiet_done.
  - unfold onDidChangeConfiguration. monad.
    destruct (negb (path_eqb (findJava h) (javaExecutablePath s))); monad.
    + use_shape. quiet_done.
    + quiet_done.
  - unfold onDidChangeTextDocument. monad. split_cases; quiet_done.
  - unfold onDidChangeActiveTextEditor. split_cases; quiet_done.
  - use_shape. quiet_done.
  - unfold insertEmmyDebugCode, insertEmmyDebugCode_insert.
    split_cases; quiet_done.
  - unfold onConfigUpdate. monad. split_cases; quiet_done.
  - unfold onProgressReport, progressBar_show, progressBar_set_text. monad.
    rewrite (Hrep c d eq_refl). monad. quiet_done.
  - unfold startServer_validated, doStartServer. split_cases; quiet_done.
  - unfold startServer_validated. monad. quiet_done.
  - use_shape. quiet_done.
  - unfold doStartServer_watched, start_failed. split_cases; quiet_done.
  - unfold doStartServer_ready, start_failed, onDidChangeActiveTextEditor. monad.
    split_cases; quiet_done.
  - unfold restartServer_stopped. destruct r.
    + use_shape. quiet_done.
    + monad. quiet_done.
  - unfold insertEmmyDebugCode_picked, insertEmmyDebugCode_insert.
    split_cases; quiet_done.
  - now destruct (Hfire due).
Qed.

Lemma holds_take_false p q l : holds p l = false -> holds p (take q l) = false.
Proof.
  intros H. destruct (holds p (take q l)) eqn:E; [|reflexivity].
  apply holds_take in E. congruence.
Qed.

Lemma step_sets_no_timer h ev s s' effs :
  sets_no_timer ev ->
  visible (progressBar s) = true -> no_hide_pending s ->
  step h ev s = Some (s', effs) ->
  visible (progressBar s') = true /\ no_hide_pending s'.
Proof.
  intros Hev Hv Hn H. unfold step in H.
  destruct (enabled h ev s) eqn:En; [|discriminate].
  inversion H; subst; clear H.
  assert (Hfire : forall due, ev <> TimerFired due).
  { intros due ->. unfold enabled in En. cbn [resumes] in En.
    rewrite (Hn due) in En. discriminate. }
  destruct (handler_sets_no_timer h ev (resume ev s) Hev Hfire)
    as [(l & Hl & Hnone) Hvis].
  destruct (resume_vars ev s) as (_ & _ & _ & _ & RP).
  split.
  - apply Hvis. now rewrite RP.
  - intros due. rewrite Hl, holds_app, Hnone, orb_false_r.
    unfold resume. destruct (resumes ev); [|apply Hn].
    cbn [pending set_pending]. apply holds_take_false, Hn.
Qed.

(** X10. Only the timer hides the indicator, and only a report with a
    percent of at least 1 sets the timer. So once the indicator is shown and
    no hide is pending, it stays shown through any sequence of events that
    holds no such report (reports with a smaller percent, a stop of the
    client, a failed restart, ...): if the last report never comes, the
    indicator is never hidden. *)
Theorem indicator_stays_without_final_report :
  forall evs s s' effs,
    visible (progressBar s) = true -> no_hide_pending s ->
    Forall (fun hev => sets_no_timer (snd hev)) evs ->
    run evs s = Some (s', effs) ->
    visible (progressBar s') = true /\ no_hide_pending s'.
Proof.
  induction evs as [|[h ev] evs IH]; intros s s' effs Hv Hn Hall H; simpl in H.
  - inversion H; subst. now split.
  - destruct (step h ev s) as [[s1 e1]|] eqn:E1; [|discriminate].
    destruct (run evs s1) as [[s2 e2]|] eqn:E2; [|discriminate].
    inversion H; subst. inversion Hall; subst.
    destruct (step_sets_no_timer h ev s s1 e1 H2 Hv Hn E1) as [Hv1 Hn1].
    exact (IH s1 s' e2 Hv1 Hn1 H3 E2).
Qed.

Lemma indicator_stays_without_final_report_witness :
  visible (progressBar
             (set_progressBar {| visible := true; bar_text := js "Indexing" |}
                ready_state)) = true
  /\ no_hide_pending
       (set_progressBar {| visible := true; bar_text := js "Indexing" |}
          ready_state).
Proof.
  apply (indicator_stays_without_final_report
           [(sample_host, ProgressReport 0 report_half);
            (sample_host, Deactivate)]
           (set_progressBar {| visible := true; bar_text := js "Indexing" |}
              ready_state)
           (set_progressBar {| visible := true; bar_text := js "Indexing" |}
              ready_state)
           [client_stop sample_client]).
  - reflexivity.
  - intros due. reflexivity.
  - repeat constructor; try discriminate;
      cbn [snd]; intros c d H; inversion H; subst; reflexivity.
  - reflexivity.
Defined.

(** ** Activation *)

(** X11. [activate] takes the development flag from the environment and
    the Java path from the locator, whatever the module variables held, and
    starts the server. The flag is set exactly when [EMMY_DEV] is the string
    [true]: then the only thing started is the configuration watcher. In
    every other case (the variable unset, or any other value) the version
    query runs, on the located executable, or on plain [java] when the
    locator answers [null] or the empty string. *)
Theorem activate_reads_flag_and_path :
  forall h s,
    let s0 :=
      set_javaExecutablePath (findJava h)
        (set_progressBar {| visible := false; bar_text := [] |} s) in
    (env_EMMY_DEV h = Some (js "true") ->
     step h Activate s =
     Some (set_pending (pending s ++ [K_watch]) (set_DEBUG_MODE true s0),
           [console_log (js "emmy lua actived!"); call_findJava;
            configWatcher_watch]))
    /\ (env_EMMY_DEV h <> Some (js "true") ->
        step h Activate s =
        Some (set_pending (pending s ++ [K_validateJava])
                (set_DEBUG_MODE false s0),
              [console_log (js "emmy lua actived!"); call_findJava;
               console_log (js "exe path : " ++ or_default (findJava h) (js "java"));
               cp_exec (version_command (or_default (findJava h) (js "java")))]))
    /\ (findJava h = None \/ findJava h = Some [] ->
        or_default (findJava h) (js "java") = js "java").
Proof.
  intros h s s0. split; [|split].
  - intros He. step_event. unfold activate. monad. rewrite He.
    rewrite (proj2 (path_eqb_eq _ _) eq_refl).
    rewrite startServer_dev by reflexivity. reflexivity.
  - intros He. step_event. unfold activate. monad.
    destruct (path_eqb (env_EMMY_DEV h) (Some (js "true"))) eqn:E;
      [now apply path_eqb_eq in E|].
    rewrite startServer_validating by reflexivity. reflexivity.
  - intros [-> | ->]; reflexivity.
Qed.

Lemma activate_reads_flag_and_path_witness :
  step sample_host Activate initial =
  Some (set_pending [K_validateJava]
          (set_javaExecutablePath (Some (js "/usr/bin/java")) initial),
        [console_log (js "emmy lua actived!"); call_findJava;
         console_log (js "exe path : /usr/bin/java");
         cp_exec ([QUOTE] ++ js "/usr/bin/java" ++ [QUOTE] ++ js " -version")])
  /\ or_default (findJava windows_host) (js "java") = js "java".
Proof.
  destruct (activate_reads_flag_and_path sample_host initial) as (_ & Hquery & _).
  destruct (activate_reads_flag_and_path windows_host initial) as (_ & _ & Hdefault).
  split.
  - apply Hquery. discriminate.
  - apply Hdefault. now left.
Defined.

(** ** The client the handshake finds *)

(** X12. In every run from the state before [activate], when the code
    after [await client.onReady()] is pending, [client] holds a client: the
    call [client.onNotification] never meets [undefined]. The client it
    registers the progress handler on is the one the variable holds at that
    moment, whichever client's handshake has completed. *)
Theorem handshake_finds_client :
  forall evs s effs c,
    run evs initial = Some (s, effs) ->
    holds (K_onReady c) (pending s) = true ->
    exists b,
      client s = Some b
      /\ forall h,
          exists s' rest,
            step h (ClientReady c (Resolved tt)) s =
            Some (s',
                  console_log (js "client ready")
                    :: client_onNotification b (js "emmy/progressReport")
                    :: rest)
            /\ progressHandlers s' = client_ref b :: progressHandlers s.
Proof.
  intros evs s effs c Hrun Hc.
  assert (Hb : client s <> None).
  { refine (onReady_has_client evs initial s effs _ Hrun c Hc).
    intros c0 H0. discriminate H0. }
  destruct (client s) as [b|] eqn:E; [|congruence].
  exists b. split; [reflexivity|]. intros h.
  unfold step. unfold enabled, resume. cbn [resumes handler].
  rewrite Hc. cbn [andb].
  unfold doStartServer_ready. monad. cbn [client set_pending]. rewrite E. monad.
  unfold onDidChangeActiveTextEditor.
  destruct (window_activeTextEditor h) as [ed|]; monad.
  - destruct (str_eqb (languageId h (document ed)) LANGUAGE_ID); monad;
      eexists _, _; split; reflexivity.
  - eexists _, _; split; reflexivity.
Qed.

Lemma handshake_finds_client_witness :
  exists b,
    client (set_pending [K_onReady 0]
              (set_clientsCreated 1
                 (set_client (Some session_client)
                    (set_javaExecutablePath (Some (js "/usr/bin/java")) initial))))
    = Some b
    /\ forall h,
        exists s' rest,
          step h (ClientReady 0 (Resolved tt))
            (set_pending [K_onReady 0]
               (set_clientsCreated 1
                  (set_client (Some session_client)
                     (set_javaExecutablePath (Some (js "/usr/bin/java"))
                        initial)))) =
          Some (s',
                console_log (js "client ready")
                  :: client_onNotification b (js "emmy/progressReport")
                  :: rest)
          /\ progressHandlers s' =
             client_ref b
               :: progressHandlers
                    (set_pending [K_onReady 0]
                       (set_clientsCreated 1
                          (set_client (Some session_client)
                             (set_javaExecutablePath
                                (Some (js "/usr/bin/java")) initial)))).
Proof.
  apply (handshake_finds_client
           [(sample_host, Activate); (sample_host, ExecDone java11);
            (sample_host, WatchDone (Resolved (J_array [])))]
           _ [console_log (js "emmy lua actived!"); call_findJava;
              console_log (js "exe path : /usr/bin/java");
              cp_exec ([QUOTE] ++ js "/usr/bin/java" ++ [QUOTE] ++ js " -version");
              configWatcher_watch;
              new_LanguageClient session_client;
              client_start session_client;
              client_onReady session_client] 0%nat);
    reflexivity.
Defined.

(** ** Timers are not merged either *)

Lemma reports_run n h c d :
  forall s,
    percent_ge_1 d = true ->
    existsb (Nat.eqb c) (progressHandlers s) = true ->
    exists s',
      run (again n h (ProgressReport c d)) s =
      Some (s', repeat (setTimeout 3000) n)
      /\ pending s' = pending s ++ repeat (K_hide (now h + 3000)) n
      /\ progressHandlers s' = progressHandlers s.
Proof.
  induction n as [|n IH]; intros s Hd Hc; unfold again in *; cbn [repeat run].
  - exists s. rewrite app_nil_r. now repeat split.
  - unfold step at 1. unfold enabled, resume. cbn [resumes handler andb].
    rewrite Hc.
    unfold onProgressReport, progressBar_show, progressBar_set_text. monad.
    rewrite Hd. monad.
    match goal with |- context [run _ ?s1] =>
      destruct (IH s1 Hd) as (s' & R & P & Hh) end.
    + exact Hc.
    + rewrite R. exists s'. split; [reflexivity|]. split.
      * rewrite P. cbn [pending set_pending set_progressBar].
        now rewrite <- app_assoc.
      * rewrite Hh. reflexivity.
Qed.

(** X13. Every report with a percent of at least 1 sets a timer of its own
    and none replaces an earlier one: after [n] such reports, [n] hides are
    pending. With C3 this means that the first of them hides the indicator
    3 seconds after the first report, however recent the last report is. *)
Theorem hide_timers_pile_up :
  forall n h s c d,
    percent_ge_1 d = true ->
    existsb (Nat.eqb c) (progressHandlers s) = true ->
    exists s',
      run (again n h (ProgressReport c d)) s =
      Some (s', repeat (setTimeout 3000) n)
      /\ pending s' = pending s ++ repeat (K_hide (now h + 3000)) n.
Proof.
  intros n h s c d Hd Hc.
  destruct (reports_run n h c d s Hd Hc) as (s' & R & P & _).
  now exists s'.
Qed.

Lemma hide_timers_pile_up_witness :
  exists s',
    run (again 3 sample_host (ProgressReport 0 report_done)) ready_state =
    Some (s', repeat (setTimeout 3000) 3)
    /\ pending s' = pending ready_state ++ repeat (K_hide (1000 + 3000)) 3.
Proof.
  apply (hide_timers_pile_up 3 sample_host ready_state 0%nat report_done);
    reflexivity.
Defined.

(** ** A configuration change while the server starts *)


